(** * Brain-tumor notebooks: the data-preparation pipeline

    A shallow embedding of the first code cell of the two notebooks
    (the SVM notebook and [Brain_Tumor_Detection_RNN.ipynb]): the image
    loader [load_images_from_folder], the call of scikit-learn's
    [train_test_split], the [StandardScaler] and, for the RNN notebook,
    the [reshape] into 64 steps of 64 values.

    The notebooks are scripts over three libraries.  What the script
    does is embedded from its text.  What the libraries do is embedded
    from their reference behaviour: [os.path.join] (posixpath),
    Pillow's [Image.open / convert / resize], NumPy's [array], [flatten]
    and [reshape], and scikit-learn's [_validate_shuffle_split],
    [ShuffleSplit] and [StandardScaler].  The file system, the image
    decoder, the resampling filter, the random generator and the
    floating-point kernels are parameters of the development. *)

From Stdlib Require Import ZArith QArith Qround Lia Ascii String.
From stdpp Require Import base list strings gmap pretty sorting.

Set Default Proof Using "Type".
Open Scope string_scope.
Open Scope list_scope.

(** ** Python exceptions and the result of a computation that may raise *)

(** Every exception of this development is an instance of Python's
    [Exception]: [OSError] and its subclasses, [ValueError],
    [PIL.UnidentifiedImageError].  [exn_str] is [str(e)]; for the
    exceptions that the libraries raise it is abridged (the libraries
    format their arguments into the text), and the statements below
    speak of their class only. *)
Record Exn := mkExn { exn_class : string; exn_str : string }.

Inductive result (A : Type) : Type :=
| Ok (a : A)
| Raise (e : Exn).
Arguments Ok {A} a.
Arguments Raise {A} e.

#[export] Instance result_ret : MRet result := λ A a, Ok a.
#[export] Instance result_bind : MBind result := λ A B f m,
  match m with
  | Ok a => f a
  | Raise e => Raise e
  end.

(** A run of a script: what it printed, and how it ended. *)
Record Run (A : Type) := mkRun { printed : list string; outcome : result A }.
Arguments mkRun {A} printed outcome.
Arguments printed {A} r.
Arguments outcome {A} r.

Definition ValueError (msg : string) : Exn := mkExn "ValueError" msg.

(** ** [os.path.join] (posixpath) *)
Module os_path.

Definition sep : ascii := "/"%char.

Definition startswith_sep (b : string) : bool :=
  match b with
  | String c _ => bool_decide (c = sep)
  | EmptyString => false
  end.

Fixpoint endswith_sep (p : string) : bool :=
  match p with
  | EmptyString => false
  | String c EmptyString => bool_decide (c = sep)
  | String _ rest => endswith_sep rest
  end.

(** [join(a, b)]: an absolute [b] replaces the path; an empty path or
    one that ends in the separator takes [b] as it is; otherwise the
    separator goes in between. *)
Definition join (a b : string) : string :=
  if startswith_sep b then b
  else if bool_decide (a = "") || endswith_sep a then a +:+ b
  else a +:+ String sep b.

End os_path.

(** ** Pillow and NumPy on single-channel images *)
Module PIL.

(** An image of mode ['L']: one 8-bit band. [px x y] is the pixel of
    column [x], row [y]. *)
Record GrayImage := mkGray {
  width : nat;
  height : nat;
  px : nat → nat → Byte.byte
}.

(** What [Image.open] returns: the header has been read, the pixel
    data is decoded when first needed.  [convert_L] is
    [.convert('L')]: it loads the data, which may raise on a
    truncated or corrupt file, and maps it to one band. *)
Record ImageFile := mkImageFile {
  mode : string;
  convert_L : result GrayImage
}.

End PIL.

(** ** The environment of a run *)

(** The file system as the notebook sees it, the image library's
    resampling filter, the random generator and nothing else.
    - [listdir p] is [os.listdir(p)], in the order the file system
      lists the entries;
    - [Image_open p] is [PIL.Image.open(p)];
    - [resample im (w, h) x y] is the pixel at column [x], row [y] of
      the image that [im.resize((w, h))] computes with the library's
      default filter;
    - [permutation seed n] is
      [numpy.random.RandomState(seed).permutation(n)]. *)
Record Env := mkEnv {
  listdir : string → result (list string);
  Image_open : string → result PIL.ImageFile;
  resample : PIL.GrayImage → nat * nat → nat → nat → Byte.byte;
  permutation : Z → nat → list nat
}.

Module Image.

(** [img.resize(size)]: a new image of exactly the requested size. *)
Definition resize (E : Env) (im : PIL.GrayImage) (size : nat * nat)
  : PIL.GrayImage :=
  PIL.mkGray size.1 size.2 (resample E im size).

End Image.

Module np.

(** [np.array(img)] of a mode-['L'] image: [height] rows of [width]
    bytes. *)
Definition array (im : PIL.GrayImage) : list (list Byte.byte) :=
  (λ y, (λ x, PIL.px im x y) <$> seq 0 (PIL.width im))
    <$> seq 0 (PIL.height im).

(** [a.flatten()], C order: the rows one after the other. *)
Definition flatten {A} (a : list (list A)) : list A := concat a.

(** [count] slices of [k] items each, from the front of [l]. *)
Fixpoint chunks {A} (count k : nat) (l : list A) : list (list A) :=
  match count with
  | 0 => []
  | S c => take k l :: chunks c k (drop k l)
  end.

(** [X.reshape((d0, d1, d2))] of a 2-D array given by its rows: the
    C-order buffer is cut into [d0] blocks of [d1] steps of [d2]
    values; NumPy raises when the sizes do not agree. *)
Definition reshape {A} (X : list (list A)) (shape : nat * nat * nat)
  : result (list (list (list A))) :=
  let '(d0, d1, d2) := shape in
  let buf := flatten X in
  if decide (length buf = d0 * d1 * d2)
  then Ok (chunks d0 d1 (chunks (d0 * d1) d2 buf))
  else Raise (ValueError "cannot reshape array into the requested shape").

(** [a[idx]] for an index array [idx] whose entries are in range. *)
Definition take_rows {A} `{Inhabited A} (a : list A) (idx : list nat) : list A :=
  (λ i, a !!! i) <$> idx.

End np.

(** ** scikit-learn: the splitter and the scaler *)

(** The floating-point arithmetic the scaler runs on, for a carrier [F]
    of floats: the cast of a pixel and of a count to a float, the
    constants 1.0 and machine epsilon, the four operations, the square
    root, the comparison, and NumPy's sum of a column (whose order of
    additions is NumPy's own). *)
Class Numerics (F : Type) := {
  float_of_uint8 : Byte.byte → F;
  float_of_nat : nat → F;
  fone : F;
  feps : F;
  fadd : F → F → F;
  fsub : F → F → F;
  fmul : F → F → F;
  fdiv : F → F → F;
  fsqrt : F → F;
  fle : F → F → bool;
  fsum : list F → F
}.

Module sklearn.

(** A [test_size] or [train_size] argument: [None], an integer count
    or a float fraction.  A float is read as the rational it denotes
    and [test_size * n_samples] as the exact product.  That is the
    binary64 product whenever the exact product is a binary64 number,
    as it is for the notebooks' 0.25; where the library would round
    the product (0.1 * 10, say) the two can differ, and no statement
    below is made about such a size. *)
Inductive size_arg :=
| SizeNone
| SizeInt (k : Z)
| SizeFloat (q : Q).

Definition out_of_range (n_samples : nat) (s : size_arg) : bool :=
  match s with
  | SizeInt k => (Z.of_nat n_samples <=? k)%Z || (k <=? 0)%Z
  | SizeFloat q => Qle_bool q 0 || Qle_bool 1 q
  | SizeNone => false
  end.

Definition _validate_shuffle_split (n_samples : nat)
    (test_size train_size : size_arg) (default_test_size : Q)
    : result (Z * Z) :=
  let test_size :=
    match test_size, train_size with
    | SizeNone, SizeNone => SizeFloat default_test_size
    | _, _ => test_size
    end in
  if out_of_range n_samples test_size then
    Raise (ValueError "test_size should be either positive and smaller than the number of samples or a float in the (0, 1) range")
  else if out_of_range n_samples train_size then
    Raise (ValueError "train_size should be either positive and smaller than the number of samples or a float in the (0, 1) range")
  else if
    match train_size, test_size with
    | SizeFloat a, SizeFloat b => negb (Qle_bool (a + b) 1)
    | _, _ => false
    end
  then
    Raise (ValueError "The sum of test_size and train_size should be in the (0, 1) range")
  else
    let n := Z.of_nat n_samples in
    (* a count that Python leaves unbound stands as 0 until the
       complement below binds it *)
    let n_test :=
      match test_size with
      | SizeFloat q => Qceiling (q * inject_Z n)
      | SizeInt k => k
      | SizeNone => 0%Z
      end in
    let n_train :=
      match train_size with
      | SizeFloat q => Qfloor (q * inject_Z n)
      | SizeInt k => k
      | SizeNone => 0%Z
      end in
    let '(n_train, n_test) :=
      match train_size, test_size with
      | SizeNone, _ => ((n - n_test)%Z, n_test)
      | _, SizeNone => (n_train, (n - n_train)%Z)
      | _, _ => (n_train, n_test)
      end in
    if (n <? n_train + n_test)%Z then
      Raise (ValueError "The sum of train_size and test_size should be smaller than the number of samples")
    else if (n_train =? 0)%Z then
      Raise (ValueError "the resulting train set will be empty")
    else Ok (n_train, n_test).

Record ShuffleSplit := mkShuffleSplit {
  test_size : size_arg;
  train_size : size_arg;
  random_state : Z
}.

(** [next(cv.split(X))]: the first (and, with [n_splits] unused here,
    only) pair of index arrays. *)
Definition split (E : Env) (cv : ShuffleSplit) (n_samples : nat)
    : result (list nat * list nat) :=
  '(n_train, n_test) ←
    _validate_shuffle_split n_samples (test_size cv) (train_size cv) (1 # 10);
  let permutation := permutation E (random_state cv) n_samples in
  let ind_test := take (Z.to_nat n_test) permutation in
  let ind_train := take (Z.to_nat n_train) (drop (Z.to_nat n_test) permutation) in
  Ok (ind_train, ind_test).

(** [train_test_split(X, y, test_size=..., random_state=...)], with
    [train_size=None], [shuffle=True], [stratify=None]. *)
Definition train_test_split {A B} `{Inhabited A, Inhabited B} (E : Env)
    (X : list A) (y : list B) (test_size : size_arg) (random_state : Z)
    : result (list A * list A * list B * list B) :=
  if negb (bool_decide (length X = length y)) then
    Raise (ValueError "Found input variables with inconsistent numbers of samples")
  else
    let n_samples := length X in
    '(n_train, n_test) ←
      _validate_shuffle_split n_samples test_size SizeNone (1 # 4);
    let cv := mkShuffleSplit (SizeInt n_test) (SizeInt n_train) random_state in
    '(train, test) ← split E cv n_samples;
    Ok (np.take_rows X train, np.take_rows X test,
        np.take_rows y train, np.take_rows y test).

(** The fitted state of a [StandardScaler]. *)
Record StandardScaler (F : Type) := mkScaler {
  n_features_in_ : nat;
  mean_ : list F;
  scale_ : list F
}.
Arguments mkScaler {F} _ _ _.
Arguments n_features_in_ {F} _.
Arguments mean_ {F} _.
Arguments scale_ {F} _.

Section scaler.
Context {F : Type} `{Numerics F}.

(** [X.astype(float64)] *)
Definition as_float (X : list (list Byte.byte)) : list (list F) :=
  fmap (M := list) (fmap (M := list) float_of_uint8) X.

(** The input check of [fit] and [transform]: a 2-D array, that is
    rows of one length [shape[1]], with at least one row and one
    column, cast to floats. *)
Definition check_array (X : list (list Byte.byte)) : result (list (list F) * nat) :=
  match X with
  | [] => Raise (ValueError "Found array with 0 sample(s) while a minimum of 1 is required by StandardScaler")
  | row :: _ =>
      if bool_decide (length row = 0) then
        Raise (ValueError "Found array with 0 feature(s) while a minimum of 1 is required by StandardScaler")
      else if negb (bool_decide (Forall (λ r, length r = length row) X)) then
        Raise (ValueError "Expected 2D array")
      else Ok (as_float X, length row)
  end.

Definition column (X : list (list F)) (c : nat) : list F :=
  omap (λ row : list F, row !! c) X.

(** [_incremental_mean_and_var] on one column of the first batch: the
    mean [new_sum / n], and the variance by the corrected two-pass
    formula, over [n] (not [n - 1]). *)
Definition _incremental_mean_and_var (col : list F) : F * F :=
  let n := float_of_nat (length col) in
  let new_sum := fsum col in
  let updated_mean := fdiv new_sum n in
  let T := fdiv new_sum n in
  let temp := (λ x, fsub x T) <$> col in
  let correction := fsum temp in
  let new_unnormalized_variance :=
    fsub (fsum ((λ t, fmul t t) <$> temp)) (fdiv (fmul correction correction) n) in
  (updated_mean, fdiv new_unnormalized_variance n).

Definition column_mean (col : list F) : F := (_incremental_mean_and_var col).1.
Definition column_var (col : list F) : F := (_incremental_mean_and_var col).2.

(** [_is_constant_feature(var, mean, n_samples)]:
    [var <= n_samples * eps * var + (n_samples * mean * eps) ** 2]. *)
Definition _is_constant_feature (var mean : F) (n_samples : nat) : bool :=
  let n := float_of_nat n_samples in
  let t := fmul (fmul n mean) feps in
  fle var (fadd (fmul (fmul n feps) var) (fmul t t)).

(** [scale_] of one column: [sqrt(var_)], and 1.0 in its place for a
    column that [_is_constant_feature] finds constant
    ([_handle_zeros_in_scale]). *)
Definition column_scale (col : list F) : F :=
  if _is_constant_feature (column_var col) (column_mean col) (length col)
  then fone
  else fsqrt (column_var col).

Definition fit (X : list (list Byte.byte)) : result (StandardScaler F) :=
  '(Xf, n_features) ← check_array X;
  let cols := column Xf <$> seq 0 n_features in
  Ok (mkScaler n_features (column_mean <$> cols) (column_scale <$> cols)).

(** One row of [(X - mean_) / scale_]. *)
Definition scale_row (sc : StandardScaler F) (row : list F) : list F :=
  (λ '(v, (m, s)), fdiv (fsub v m) s) <$> zip row (zip (mean_ sc) (scale_ sc)).

Definition transform (sc : StandardScaler F) (X : list (list Byte.byte))
    : result (list (list F)) :=
  '(Xf, n_features) ← check_array X;
  if negb (bool_decide (n_features = n_features_in_ sc)) then
    Raise (A := list (list F))
      (ValueError "X has a different number of features than StandardScaler is expecting")
  else Ok (scale_row sc <$> (Xf : list (list F))).

Definition fit_transform (X : list (list Byte.byte))
    : result (StandardScaler F * list (list F)) :=
  sc ← fit X;
  Xt ← transform sc X;
  Ok (sc, Xt).

End scaler.

End sklearn.

(** ** The loader, SVM notebook *)

(** The two lists the loader appends to, and its standard output. *)
Record LoaderState := mkLoaderState {
  images : list (list Byte.byte);
  labels : list nat;
  stdout : list string
}.

Definition enumerate {A} (l : list A) : list (nat * A) := zip (seq 0 (length l)) l.

(** What the first cell leaves behind for the rest of a notebook. *)
Record Prepared (F : Type) := mkPrepared {
  X_train : list (list F);
  X_test : list (list F);
  y_train : list nat;
  y_test : list nat;
  scaler : sklearn.StandardScaler F
}.
Arguments mkPrepared {F} _ _ _ _ _.
Arguments X_train {F} _.
Arguments X_test {F} _.
Arguments y_train {F} _.
Arguments y_test {F} _.
Arguments scaler {F} _.

Module SVM.

(** The body of the [try]: open, convert to grayscale, resize to
    64x64, flatten. *)
Definition try_body (E : Env) (img_path : string) : result (list Byte.byte) :=
  img ← Image_open E img_path;
  img ← PIL.convert_L img;
  let img := Image.resize E img (64, 64) in
  let img_array := np.flatten (np.array img) in
  Ok img_array.

(** [for filename in os.listdir(path): try ... except Exception as e: print(...)] *)
Fixpoint for_filename (E : Env) (path : string) (label : nat)
    (filenames : list string) (st : LoaderState) : LoaderState :=
  match filenames with
  | [] => st
  | filename :: rest =>
      let img_path := os_path.join path filename in
      let st' :=
        match try_body E img_path with
        | Ok img_array =>
            mkLoaderState (images st ++ [img_array]) (labels st ++ [label])
              (stdout st)
        | Raise e =>
            mkLoaderState (images st) (labels st)
              (stdout st ++ ["Error loading image " +:+ img_path +:+ ": " +:+ exn_str e])
        end in
      for_filename E path label rest st'
  end.

(** [for label, subfolder in enumerate(['no', 'yes'])]; an exception of
    [os.listdir] is not caught and leaves the function. *)
Fixpoint for_subfolder (E : Env) (folder : string)
    (subfolders : list (nat * string)) (st : LoaderState)
    : LoaderState * option Exn :=
  match subfolders with
  | [] => (st, None)
  | (label, subfolder) :: rest =>
      let path := os_path.join folder subfolder in
      match listdir E path with
      | Raise e => (st, Some e)
      | Ok filenames =>
          for_subfolder E folder rest (for_filename E path label filenames st)
      end
  end.

Definition load_images_from_folder (E : Env) (folder : string)
  : Run (list (list Byte.byte) * list nat) :=
  let '(st, exc) :=
    for_subfolder E folder (enumerate ["no"; "yes"]) (mkLoaderState [] [] []) in
  match exc with
  | Some e => mkRun (stdout st) (Raise e)
  | None => mkRun (stdout st) (Ok (images st, labels st))
  end.

Definition data_folder : string := "./brain_tumor_dataset".

(** The splitter and the scaler, as the cell calls them on [X, y]. *)
Definition split_and_scale {F} `{Numerics F} (E : Env)
    (X : list (list Byte.byte)) (y : list nat) : result (Prepared F) :=
  '(X_train, X_test, y_train, y_test) ←
    sklearn.train_test_split E X y (sklearn.SizeFloat (1 # 4)) 90;
  '(scaler, X_train) ← sklearn.fit_transform X_train;
  X_test ← sklearn.transform scaler X_test;
  Ok (mkPrepared X_train X_test y_train y_test scaler).

(** The first three stages on the data folder. *)
Definition load_split_scale {F} `{Numerics F} (E : Env) : Run (Prepared F) :=
  let loaded := load_images_from_folder E data_folder in
  match outcome loaded with
  | Raise e => mkRun (printed loaded) (Raise e)
  | Ok (X, y) => mkRun (printed loaded) (split_and_scale E X y)
  end.

(** The whole cell: the three stages, then the closing [print]. *)
Definition cell {F} `{Numerics F} (E : Env) : Run (Prepared F) :=
  let r := load_split_scale E in
  match outcome r with
  | Raise e => r
  | Ok p => mkRun (printed r ++ ["Data loading and preprocessing complete."]) (Ok p)
  end.

End SVM.

(** ** The RNN notebook *)

(** The RNN notebook's cell leaves the features as sequences. *)
Record Sequences (F : Type) := mkSequences {
  X_train_steps : list (list (list F));
  X_test_steps : list (list (list F));
  flat : Prepared F
}.
Arguments mkSequences {F} _ _ _.
Arguments X_train_steps {F} _.
Arguments X_test_steps {F} _.
Arguments flat {F} _.

Module RNN.

(** The body of the [try] block. *)
Definition try_body (E : Env) (img_path : string) : result (list Byte.byte) :=
  img ← Image_open E img_path;
  img ← PIL.convert_L img;
  let img := Image.resize E img (64, 64) in
  let img_array := np.flatten (np.array img) in
  Ok img_array.

(** [for filename in os.listdir(path): try ... except Exception as e: print(...)] *)
Fixpoint for_filename (E : Env) (path : string) (label : nat)
    (filenames : list string) (st : LoaderState) : LoaderState :=
  match filenames with
  | [] => st
  | filename :: rest =>
      let img_path := os_path.join path filename in
      let st' :=
        match try_body E img_path with
        | Ok img_array =>
            mkLoaderState (images st ++ [img_array]) (labels st ++ [label])
              (stdout st)
        | Raise e =>
            mkLoaderState (images st) (labels st)
              (stdout st ++ ["Error loading image " +:+ img_path +:+ ": " +:+ exn_str e])
        end in
      for_filename E path label rest st'
  end.

(** [for label, subfolder in enumerate(['no', 'yes'])]; an exception of
    [os.listdir] is not caught and leaves the function. *)
Fixpoint for_subfolder (E : Env) (folder : string)
    (subfolders : list (nat * string)) (st : LoaderState)
    : LoaderState * option Exn :=
  match subfolders with
  | [] => (st, None)
  | (label, subfolder) :: rest =>
      let path := os_path.join folder subfolder in
      match listdir E path with
      | Raise e => (st, Some e)
      | Ok filenames =>
          for_subfolder E folder rest (for_filename E path label filenames st)
      end
  end.

Definition load_images_from_folder (E : Env) (folder : string)
  : Run (list (list Byte.byte) * list nat) :=
  let '(st, exc) :=
    for_subfolder E folder (enumerate ["no"; "yes"]) (mkLoaderState [] [] []) in
  match exc with
  | Some e => mkRun (stdout st) (Raise e)
  | None => mkRun (stdout st) (Ok (images st, labels st))
  end.

Definition data_folder : string := "./brain_tumor_dataset".

(** The splitter and the scaler, as the cell calls them on [X, y]. *)
Definition split_and_scale {F} `{Numerics F} (E : Env)
    (X : list (list Byte.byte)) (y : list nat) : result (Prepared F) :=
  '(X_train, X_test, y_train, y_test) ←
    sklearn.train_test_split E X y (sklearn.SizeFloat (1 # 4)) 90;
  '(scaler, X_train) ← sklearn.fit_transform X_train;
  X_test ← sklearn.transform scaler X_test;
  Ok (mkPrepared X_train X_test y_train y_test scaler).

(** The first three stages on the data folder. *)
Definition load_split_scale {F} `{Numerics F} (E : Env) : Run (Prepared F) :=
  let loaded := load_images_from_folder E data_folder in
  match outcome loaded with
  | Raise e => mkRun (printed loaded) (Raise e)
  | Ok (X, y) => mkRun (printed loaded) (split_and_scale E X y)
  end.

(** [X.reshape((X.shape[0], 64, 64))] *)
Definition shape_adapter {F} (X : list (list F)) : result (list (list (list F))) :=
  np.reshape X (length X, 64, 64).

(** The whole cell: the three stages, the two reshapes, the closing
    [print]. *)
Definition cell {F} `{Numerics F} (E : Env) : Run (Sequences F) :=
  let r := load_split_scale E in
  match outcome r with
  | Raise e => mkRun (printed r) (Raise e)
  | Ok p =>
      match
        X_train ← shape_adapter (X_train p);
        X_test ← shape_adapter (X_test p);
        Ok (mkSequences X_train X_test p)
      with
      | Raise e => mkRun (printed r) (Raise e)
      | Ok q => mkRun (printed r ++ ["Data loading and preprocessing complete."]) (Ok q)
      end
  end.

End RNN.

(** ** Python's [round] on a float read as a rational: half to even *)
Module py.

Definition round (q : Q) : Z :=
  let f := Qfloor q in
  match (q - inject_Z f ?= 1 # 2)%Q with
  | Lt => f
  | Gt => (f + 1)%Z
  | Eq => if Z.even f then f else (f + 1)%Z
  end.

End py.

(** ** What the statements below speak about *)

(** The entries of a listing whose [try] body ends well, with the array
    it appends, and in listing order. *)
Definition decoded (E : Env) (path : string) (filenames : list string)
    : list (list Byte.byte) :=
  omap (λ filename,
          match SVM.try_body E (os_path.join path filename) with
          | Ok img_array => Some img_array
          | Raise _ => None
          end) filenames.

(** The line printed for each entry of a listing whose [try] body
    raises, in listing order. *)
Definition diagnostics (E : Env) (path : string) (filenames : list string)
    : list string :=
  omap (λ filename,
          let img_path := os_path.join path filename in
          match SVM.try_body E img_path with
          | Ok _ => None
          | Raise e => Some ("Error loading image " +:+ img_path +:+ ": " +:+ exn_str e)
          end) filenames.

(** The single-band image that a file holds, when [Image.open] and
    [.convert('L')] both return. *)
Definition grayscale_of (E : Env) (img_path : string) : option PIL.GrayImage :=
  match Image_open E img_path with
  | Ok f =>
      match PIL.convert_L f with
      | Ok g => Some g
      | Raise _ => None
      end
  | Raise _ => None
  end.

Definition decodes (E : Env) (img_path : string) : bool :=
  match SVM.try_body E img_path with
  | Ok _ => true
  | Raise _ => false
  end.

(** A random generator that is what it says: [permutation seed n]
    lists the indices below [n], each once. *)
Definition good_rng (E : Env) : Prop :=
  ∀ seed n, permutation E seed n ≡ₚ seq 0 n.

(** The two index arrays [train_test_split] cuts [n_samples] rows by. *)
Definition split_indices (E : Env) (n_samples : nat) (test_size : sklearn.size_arg)
    (random_state : Z) : result (list nat * list nat) :=
  '(n_train, n_test) ←
    sklearn._validate_shuffle_split n_samples test_size sklearn.SizeNone (1 # 4);
  sklearn.split E
    (sklearn.mkShuffleSplit (sklearn.SizeInt n_test) (sklearn.SizeInt n_train) random_state)
    n_samples.

(** The index arrays of a split that puts [n_test] of [n] samples into
    the test subset: [permutation[:n_test]] and
    [permutation[n_test:n_test + n_train]] with [n_train = n - n_test]. *)
Definition test_indices (E : Env) (seed : Z) (n : nat) (n_test : Z) : list nat :=
  take (Z.to_nat n_test) (permutation E seed n).
Definition train_indices (E : Env) (seed : Z) (n : nat) (n_test : Z) : list nat :=
  take (Z.to_nat (Z.of_nat n - n_test))
    (drop (Z.to_nat n_test) (permutation E seed n)).

(** ** A small concrete environment *)
Module Demo.

(** Nearest-neighbour resampling. *)
Definition nearest (im : PIL.GrayImage) (size : nat * nat) (x y : nat) : Byte.byte :=
  PIL.px im (x * PIL.width im / size.1) (y * PIL.height im / size.2).

(** A 2x2 image whose pixel at [(x, y)] is [b] on the diagonal and
    [x00] elsewhere. *)
Definition tile (b : Byte.byte) : PIL.GrayImage :=
  PIL.mkGray 2 2 (λ x y, if bool_decide (x = y) then b else Byte.x00).

Definition good (b : Byte.byte) : result PIL.ImageFile :=
  Ok (PIL.mkImageFile "L" (Ok (tile b))).

Definition truncated : result PIL.ImageFile :=
  Ok (PIL.mkImageFile "RGB" (Raise (mkExn "OSError" "image file is truncated"))).

Definition no_dir : string := "./brain_tumor_dataset/no".
Definition yes_dir : string := "./brain_tumor_dataset/yes".

Definition dirs : gmap string (list string) :=
  {[ no_dir := ["n1.jpg"; "notes.txt"; "n2.jpg"];
     yes_dir := ["y1.jpg"; "y2.jpg"; "cut.jpg"] ]}.

Definition files : gmap string (result PIL.ImageFile) :=
  {[ "./brain_tumor_dataset/no/n1.jpg" := good Byte.x10;
     "./brain_tumor_dataset/no/notes.txt" :=
       Raise (mkExn "UnidentifiedImageError" "cannot identify image file");
     "./brain_tumor_dataset/no/n2.jpg" := good Byte.x20;
     "./brain_tumor_dataset/yes/y1.jpg" := good Byte.x30;
     "./brain_tumor_dataset/yes/y2.jpg" := good Byte.x40;
     "./brain_tumor_dataset/yes/cut.jpg" := truncated ]}.

Definition FileNotFoundError : Exn :=
  mkExn "FileNotFoundError" "[Errno 2] No such file or directory".

Definition env_of (dirs : gmap string (list string)) : Env :=
  mkEnv
    (λ p, match dirs !! p with Some l => Ok l | None => Raise FileNotFoundError end)
    (λ p, match files !! p with Some f => f | None => Raise FileNotFoundError end)
    nearest
    (λ _ n, rev (seq 0 n)).

Definition env : Env := env_of dirs.

(** The same tree without its [yes] directory. *)
Definition env_no_yes : Env := env_of (delete yes_dir dirs).

(** Exact rationals as a stand-in for the floats: the four operations
    are exact, the square root is the root where the argument is a
    rational square, and epsilon is 2^-52. *)
Definition Qsum (l : list Q) : Q := Qred (foldr Qplus 0%Q l).
Definition Qsqrt (x : Q) : Q :=
  let r := Qred x in Qmake (Z.sqrt (Qnum r)) (Pos.sqrt (Qden r)).

#[export] Instance Q_numerics : Numerics Q := {|
  float_of_uint8 b := inject_Z (Z.of_N (Byte.to_N b));
  float_of_nat n := inject_Z (Z.of_nat n);
  fone := 1%Q;
  feps := (1 # 4503599627370496)%Q;
  fadd x y := Qred (x + y);
  fsub x y := Qred (x - y);
  fmul x y := Qred (x * y);
  fdiv x y := Qred (x / y);
  fsqrt := Qsqrt;
  fle := Qle_bool;
  fsum := Qsum
|}.

(** Six samples of two features and their labels; with the reversed
    identity as permutation the last two rows are the test rows.
    [X6'] differs from [X6] in the test rows only. *)
Definition X6 : list (list Byte.byte) :=
  [[Byte.x01; Byte.x0a]; [Byte.x03; Byte.x0a]; [Byte.x01; Byte.x0a];
   [Byte.x03; Byte.x0a]; [Byte.x07; Byte.x0b]; [Byte.x09; Byte.x0c]].
Definition y6 : list nat := [0; 0; 0; 1; 1; 1].

(** Two samples, and five. *)
Definition X2 : list (list Byte.byte) := [[Byte.x01; Byte.x0a]; [Byte.x03; Byte.x0a]].
Definition y2 : list nat := [0; 1].
Definition X5 : list (list Byte.byte) :=
  [[Byte.x01; Byte.x0a]; [Byte.x03; Byte.x0a]; [Byte.x01; Byte.x0a];
   [Byte.x03; Byte.x0a]; [Byte.x07; Byte.x0b]].
Definition y5 : list nat := [0; 0; 0; 1; 1].

(** What the splitter and the scaler leave of [X6] and of [X6']. *)
Definition prepared_of (X : list (list Byte.byte)) : Prepared Q :=
  match SVM.split_and_scale env X y6 with
  | Ok p => p
  | Raise _ => mkPrepared [] [] [] [] (sklearn.mkScaler 0 [] [])
  end.

(** One feature row of 4096 values, and one of ten. *)
Definition row4096 : list nat := seq 0 4096.
Definition row10 : list nat := seq 0 10.

(** What the loader returns in [env]. *)
Definition dataset : list (list Byte.byte) * list nat :=
  match outcome (SVM.load_images_from_folder env "./brain_tumor_dataset") with
  | Ok d => d
  | Raise _ => ([], [])
  end.

End Demo.

(** ** The later cells: predictions and the misclassified images *)

(** NumPy on the label arrays of the later cells. *)
Module numpy.

Definition IndexError : Exn := mkExn "IndexError" "index is out of bounds".

(** [a[i]] for an index that is not negative. *)
Definition getitem {A} (a : list A) (i : nat) : result A :=
  match a !! i with
  | Some x => Ok x
  | None => Raise IndexError
  end.

(** [a != b] on two 1-D arrays: element by element; an operand of one
    element is broadcast; any other difference in length raises. *)
Definition not_equal (a b : list nat) : result (list bool) :=
  let ne (x y : nat) := negb (bool_decide (x = y)) in
  if bool_decide (length a = length b) then Ok (zip_with ne a b)
  else
    match a, b with
    | [x], _ => Ok (ne x <$> b)
    | _, [y] => Ok ((λ x, ne x y) <$> a)
    | _, _ => Raise (ValueError "operands could not be broadcast together")
    end.

(** [np.where(cond)[0]]: the positions that hold [True], ascending;
    [where_from i] numbers the positions from [i]. *)
Fixpoint where_from (i : nat) (cond : list bool) : list nat :=
  match cond with
  | [] => []
  | b :: rest => if b then i :: where_from (S i) rest else where_from (S i) rest
  end.

Definition where_ (cond : list bool) : list nat := where_from 0 cond.

(** [a.reshape(d0, d1)] of an array whose C-order buffer is [buf]. *)
Definition reshape2 {A} (buf : list A) (shape : nat * nat) : result (list (list A)) :=
  let '(d0, d1) := shape in
  if decide (length buf = d0 * d1)
  then Ok (np.chunks d0 d1 buf)
  else Raise (ValueError "cannot reshape array into the requested shape").

End numpy.

(** What a plotting cell hands to matplotlib, in order. *)
Inductive PlotEvent (F : Type) : Type :=
| Imshow (img : list (list F))
| Title (s : string)
| Show.
Arguments Imshow {F} img.
Arguments Title {F} s.
Arguments Show {F}.

Record PlotRun (F : Type) := mkPlotRun {
  events : list (PlotEvent F);
  ending : result unit
}.
Arguments mkPlotRun {F} _ _.
Arguments events {F} _.
Arguments ending {F} _.

(** The last cell of the SVM notebook, on the [X_test], [y_test] of the
    first cell and the [y_pred] of the evaluation cell. *)
Module SVM_cells.

(** [np.where(y_test != y_pred)[0]] *)
Definition misclassified_indices (y_test y_pred : list nat) : result (list nat) :=
  cond ← numpy.not_equal y_test y_pred;
  Ok (numpy.where_ cond).

(** [f"True Label: {y_test[index]}, Predicted: {y_pred[index]}"] *)
Definition title (true_label predicted : nat) : string :=
  "True Label: " +:+ pretty true_label +:+ ", Predicted: " +:+ pretty predicted.

(** [for index in misclassified_indices: imshow; title; show] *)
Fixpoint for_index {F} (X_test : list (list F)) (y_test y_pred : list nat)
    (indices : list nat) (ev : list (PlotEvent F)) : PlotRun F :=
  match indices with
  | [] => mkPlotRun ev (Ok ())
  | index :: rest =>
      match row ← numpy.getitem X_test index; numpy.reshape2 row (64, 64) with
      | Raise e => mkPlotRun ev (Raise e)
      | Ok img =>
          let ev := ev ++ [Imshow img] in
          match
            t ← numpy.getitem y_test index;
            p ← numpy.getitem y_pred index;
            Ok (title t p)
          with
          | Raise e => mkPlotRun ev (Raise e)
          | Ok s => for_index X_test y_test y_pred rest (ev ++ [Title s; Show])
          end
      end
  end.

Definition misclassified_images {F} (X_test : list (list F))
    (y_test y_pred : list nat) : PlotRun F :=
  match misclassified_indices y_test y_pred with
  | Raise e => mkPlotRun [] (Raise e)
  | Ok indices => for_index X_test y_test y_pred indices []
  end.

End SVM_cells.

(** The evaluation cell and the last cell of the RNN notebook, whose
    [X_test] holds 64 steps of 64 values per sample. *)
Module RNN_cells.

(** [(rnn_model.predict(X_test) > 0.5).astype(int).flatten()], on the
    array of probabilities that [predict] returns, one row per sample.
    A probability is read as the rational it denotes. *)
Definition y_pred (proba : list (list Q)) : list nat :=
  np.flatten
    ((λ row : list Q, (λ q, if Qle_bool q (1 # 2) then 0 else 1) <$> row) <$> proba).

Definition misclassified_indices (y_test y_pred : list nat) : result (list nat) :=
  cond ← numpy.not_equal y_test y_pred;
  Ok (numpy.where_ cond).

Definition title (true_label predicted : nat) : string :=
  "True Label: " +:+ pretty true_label +:+ ", Predicted: " +:+ pretty predicted.

Fixpoint for_index {F} (X_test : list (list (list F))) (y_test y_pred : list nat)
    (indices : list nat) (ev : list (PlotEvent F)) : PlotRun F :=
  match indices with
  | [] => mkPlotRun ev (Ok ())
  | index :: rest =>
      match
        steps ← numpy.getitem X_test index;
        numpy.reshape2 (np.flatten steps) (64, 64)
      with
      | Raise e => mkPlotRun ev (Raise e)
      | Ok img =>
          let ev := ev ++ [Imshow img] in
          match
            t ← numpy.getitem y_test index;
            p ← numpy.getitem y_pred index;
            Ok (title t p)
          with
          | Raise e => mkPlotRun ev (Raise e)
          | Ok s => for_index X_test y_test y_pred rest (ev ++ [Title s; Show])
          end
      end
  end.

Definition misclassified_images {F} (X_test : list (list (list F)))
    (y_test y_pred : list nat) : PlotRun F :=
  match misclassified_indices y_test y_pred with
  | Raise e => mkPlotRun [] (Raise e)
  | Ok indices => for_index X_test y_test y_pred indices []
  end.

End RNN_cells.

(** The three events of the figure for one test sample. *)
Definition figure_at {F} (X_test : list (list F)) (y_test y_pred : list nat)
    (index : nat) : list (PlotEvent F) :=
  match X_test !! index, y_test !! index, y_pred !! index with
  | Some row, Some t, Some p =>
      [Imshow (np.chunks 64 64 row); Title (SVM_cells.title t p); Show]
  | _, _, _ => []
  end.

(** More of the concrete environment. *)
Module Scenario.
Import Demo.

(** A tree in which one entry decodes. *)
Definition env_one_image : Env :=
  Demo.env_of {[ Demo.no_dir := ["notes.txt"]; Demo.yes_dir := ["y1.jpg"] ]}.

(** A root folder without its two directories. *)
Definition env_empty_root : Env := Demo.env_of ∅.

(** Three test rows of 4096 values, their labels and two predictions. *)
Definition X_test3 : list (list nat) := [seq 0 4096; seq 1 4096; seq 2 4096].
Definition y_test3 : list nat := [0; 1; 1].
Definition y_pred3 : list nat := [0; 0; 1].
Definition proba3 : list (list Q) := [[1 # 10]; [1 # 2]; [9 # 10]].

(** What the first cell of each notebook leaves in [Demo.env]. *)
Definition svm_prepared : Prepared Q :=
  match outcome (SVM.cell Demo.env) with
  | Ok p => p
  | Raise _ => mkPrepared [] [] [] [] (sklearn.mkScaler 0 [] [])
  end.
Definition rnn_sequences : Sequences Q :=
  match outcome (RNN.cell Demo.env) with
  | Ok q => q
  | Raise _ => mkSequences [] [] svm_prepared
  end.

(** A scaler of 4096 features that subtracts 0 and divides by 1. *)
Definition plain_scaler : sklearn.StandardScaler Q :=
  sklearn.mkScaler 4096 (replicate 4096 0%Q) (replicate 4096 1%Q).

End Scenario.

(** * Properties *)

(** ** The loader *)

Section loader.
Context (E : Env).

Lemma decoded_app path l1 l2 :
  decoded E path (l1 ++ l2) = decoded E path l1 ++ decoded E path l2.
Proof. unfold decoded. by rewrite omap_app. Qed.

(** One pass over a listing appends the arrays of the entries that
    decode, as many copies of the label, and one line per entry that
    does not. *)
Lemma for_filename_spec path label filenames st :
  SVM.for_filename E path label filenames st =
    mkLoaderState
      (images st ++ decoded E path filenames)
      (labels st ++ replicate (length (decoded E path filenames)) label)
      (stdout st ++ diagnostics E path filenames).
Proof.
  revert st. induction filenames as [|filename rest IH]; intros st.
  - destruct st; cbn. by rewrite !app_nil_r.
  - cbn [SVM.for_filename]. rewrite IH. unfold decoded, diagnostics.
    cbn [omap list_omap].
    destruct (SVM.try_body E (os_path.join path filename)) as [a|e]; cbn;
      by rewrite <- ?app_assoc.
Qed.

(** The loader on a folder whose two listings succeed. *)
Lemma load_images_listed folder fno fyes :
  listdir E (os_path.join folder "no") = Ok fno →
  listdir E (os_path.join folder "yes") = Ok fyes →
  SVM.load_images_from_folder E folder =
    let dno := decoded E (os_path.join folder "no") fno in
    let dyes := decoded E (os_path.join folder "yes") fyes in
    mkRun
      (diagnostics E (os_path.join folder "no") fno
         ++ diagnostics E (os_path.join folder "yes") fyes)
      (Ok (dno ++ dyes, replicate (length dno) 0 ++ replicate (length dyes) 1)).
Proof.
  intros Hno Hyes. unfold SVM.load_images_from_folder.
  cbn [enumerate length seq zip zip_with SVM.for_subfolder].
  rewrite Hno, for_filename_spec. cbn [images labels stdout app].
  rewrite Hyes, for_filename_spec. by cbn.
Qed.

(** A run of the loader that returns has listed both directories. *)
Lemma load_images_returns folder X y :
  outcome (SVM.load_images_from_folder E folder) = Ok (X, y) →
  ∃ fno fyes,
    listdir E (os_path.join folder "no") = Ok fno
    ∧ listdir E (os_path.join folder "yes") = Ok fyes.
Proof.
  unfold SVM.load_images_from_folder.
  cbn [enumerate length seq zip zip_with SVM.for_subfolder].
  destruct (listdir E (os_path.join folder "no")) as [fno|e]; [|by cbn].
  destruct (listdir E (os_path.join folder "yes")) as [fyes|e]; [|by cbn].
  eauto.
Qed.

(** A failing listing leaves the loader with that very exception. *)
Lemma load_images_listdir_raises folder e :
  listdir E (os_path.join folder "no") = Raise e
  ∨ (∃ fno, listdir E (os_path.join folder "no") = Ok fno
            ∧ listdir E (os_path.join folder "yes") = Raise e) →
  outcome (SVM.load_images_from_folder E folder) = Raise e.
Proof.
  unfold SVM.load_images_from_folder.
  cbn [enumerate length seq zip zip_with SVM.for_subfolder].
  intros [-> | (fno & -> & ->)]; by cbn.
Qed.

End loader.

(** ** Rows of equal length, read row-major *)

Section row_major.
Context {A : Type}.
Implicit Types (l : list (list A)) (row : list A).

Lemma concat_uniform_length l w :
  Forall (λ row, length row = w) l → length (concat l) = length l * w.
Proof.
  induction 1 as [|row l Hrow _ IH]; [done|].
  cbn. rewrite length_app, IH, Hrow. lia.
Qed.

Lemma concat_uniform_lookup l w r c :
  Forall (λ row, length row = w) l → c < w →
  concat l !! (r * w + c) = l !! r ≫= (.!! c).
Proof.
  intros Hl Hc. revert r. induction Hl as [|row l Hrow _ IH]; intros r.
  - by rewrite !lookup_nil.
  - destruct r as [|r]; cbn.
    + rewrite lookup_app_l by lia. done.
    + rewrite lookup_app_r by lia.
      replace (w + r * w + c - length row) with (r * w + c) by lia.
      apply IH.
Qed.

End row_major.

Section image_shape.
Context (E : Env).

Lemma array_rows (im : PIL.GrayImage) :
  Forall (λ row, length row = PIL.width im) (np.array im).
Proof.
  unfold np.array. apply Forall_fmap, Forall_forall. intros y _. cbn.
  by rewrite length_fmap, length_seq.
Qed.

Lemma array_length (im : PIL.GrayImage) : length (np.array im) = PIL.height im.
Proof. unfold np.array. by rewrite length_fmap, length_seq. Qed.

Lemma flatten_array_length (im : PIL.GrayImage) :
  length (np.flatten (np.array im)) = PIL.height im * PIL.width im.
Proof.
  unfold np.flatten.
  rewrite (concat_uniform_length _ (PIL.width im)) by apply array_rows.
  by rewrite array_length.
Qed.

(** Row-major: item [r * width + c] is the pixel of row [r], column [c]. *)
Lemma flatten_array_lookup (im : PIL.GrayImage) r c :
  r < PIL.height im → c < PIL.width im →
  np.flatten (np.array im) !! (r * PIL.width im + c) = Some (PIL.px im c r).
Proof.
  intros Hr Hc. unfold np.flatten.
  rewrite (concat_uniform_lookup _ (PIL.width im)) by (apply array_rows || done).
  unfold np.array. rewrite list_lookup_fmap, lookup_seq_lt by done. cbn.
  by rewrite list_lookup_fmap, lookup_seq_lt.
Qed.

(** What a successful [try] body has done. *)
Lemma try_body_ok img_path img_array :
  SVM.try_body E img_path = Ok img_array →
  ∃ f g, Image_open E img_path = Ok f ∧ PIL.convert_L f = Ok g
         ∧ img_array = np.flatten (np.array (Image.resize E g (64, 64))).
Proof.
  unfold SVM.try_body.
  destruct (Image_open E img_path) as [f|]; cbn [mbind result_bind]; [|done].
  destruct (PIL.convert_L f) as [g|] eqn:Hg; cbn [mbind result_bind]; [|done].
  intros [= <-]. exists f, g. split_and!; done.
Qed.

Lemma decoded_elem path filenames img :
  img ∈ decoded E path filenames →
  ∃ filename, filename ∈ filenames
              ∧ SVM.try_body E (os_path.join path filename) = Ok img.
Proof.
  unfold decoded. rewrite list_elem_of_omap. intros (filename & Hin & Hdec).
  exists filename. split; [done|].
  destruct (SVM.try_body E (os_path.join path filename)); congruence.
Qed.

Lemma decoded_length path filenames :
  length (decoded E path filenames)
  = length (filter (λ filename, decodes E (os_path.join path filename) = true) filenames).
Proof.
  unfold decoded, decodes. induction filenames as [|filename rest IH]; [done|].
  cbn [omap list_omap]. rewrite filter_cons.
  destruct (SVM.try_body E (os_path.join path filename)); cbn.
  - rewrite decide_True by done. cbn. by f_equal.
  - rewrite decide_False by done. done.
Qed.

Lemma decoded_diagnostics_length path filenames :
  length (decoded E path filenames) + length (diagnostics E path filenames)
  = length filenames.
Proof.
  unfold decoded, diagnostics. induction filenames as [|filename rest IH]; [done|].
  cbn [omap list_omap].
  destruct (SVM.try_body E (os_path.join path filename)); cbn; lia.
Qed.

Lemma diagnostics_elem path filenames filename e :
  filename ∈ filenames →
  SVM.try_body E (os_path.join path filename) = Raise e →
  "Error loading image " +:+ os_path.join path filename +:+ ": " +:+ exn_str e
    ∈ diagnostics E path filenames.
Proof.
  intros Hin Hraise. unfold diagnostics. apply list_elem_of_omap.
  exists filename. split; [done|]. cbn. by rewrite Hraise.
Qed.

End image_shape.

Lemma zip_replicate_app {A B} (l1 l2 : list A) (b1 b2 : B) :
  zip (l1 ++ l2) (replicate (length l1) b1 ++ replicate (length l2) b2)
  = ((., b1) <$> l1) ++ ((., b2) <$> l2).
Proof.
  induction l1 as [|a l1 IH]; cbn.
  - induction l2 as [|a l2 IH]; cbn; [done|]. by f_equal.
  - by f_equal.
Qed.

(** ** Claims about the loader *)

(** C2. In either notebook every sample the loader returns carries the
    index of the subdirectory it was read from: the dataset, sample by
    sample, is
    the decodable entries of [no] with label 0 followed by the
    decodable entries of [yes] with label 1; and a sample at any
    position with label [label] was decoded from an entry of the
    subdirectory that [enumerate] numbers [label]. *)
Theorem label_is_subdirectory_index (E : Env)
    (load : Env → string → Run (list (list Byte.byte) * list nat))
    (folder : string) (X : list (list Byte.byte)) (y : list nat) :
  load ∈ [SVM.load_images_from_folder; RNN.load_images_from_folder] →
  outcome (load E folder) = Ok (X, y) →
  length X = length y
  ∧ ∃ fno fyes,
      listdir E (os_path.join folder "no") = Ok fno
      ∧ listdir E (os_path.join folder "yes") = Ok fyes
      ∧ zip X y
        = ((., 0) <$> decoded E (os_path.join folder "no") fno)
          ++ ((., 1) <$> decoded E (os_path.join folder "yes") fyes)
      ∧ ∀ i img label,
          zip X y !! i = Some (img, label) →
          ∃ subfolder filenames filename,
            enumerate ["no"; "yes"] !! label = Some (label, subfolder)
            ∧ listdir E (os_path.join folder subfolder) = Ok filenames
            ∧ filename ∈ filenames
            ∧ SVM.try_body E (os_path.join (os_path.join folder subfolder) filename)
              = Ok img.
Proof.
  intros Hload Hrun.
  assert (load = SVM.load_images_from_folder) as ->.
  { apply elem_of_cons in Hload as [->|Hload]; [done|].
    by apply list_elem_of_singleton in Hload as ->. }
  destruct (load_images_returns E folder X y Hrun) as (fno & fyes & Hno & Hyes).
  rewrite (load_images_listed E folder fno fyes Hno Hyes) in Hrun.
  cbn [outcome] in Hrun. injection Hrun as <- <-.
  split; [by rewrite !length_app, !length_replicate|].
  exists fno, fyes. rewrite zip_replicate_app. split_and!; [done..|].
  intros i img label Hi. apply list_elem_of_lookup_2 in Hi.
  apply elem_of_app in Hi as [Hi|Hi];
    apply list_elem_of_fmap in Hi as (img' & [= -> ->] & Hin);
    apply decoded_elem in Hin as (filename & Hin & Hdec).
  - by exists "no", fno, filename.
  - by exists "yes", fyes, filename.
Qed.

Lemma label_is_subdirectory_index_witness :
  length Demo.dataset.1 = length Demo.dataset.2
  ∧ Demo.dataset.2 = [0; 0; 1; 1].
Proof.
  split; [|by vm_compute].
  apply (label_is_subdirectory_index Demo.env RNN.load_images_from_folder
           "./brain_tumor_dataset" Demo.dataset.1 Demo.dataset.2).
  - apply list_elem_of_further, list_elem_of_here.
  - by vm_compute.
Defined.

(** C4. When both listings succeed the loader returns, whatever the
    entries are: an entry whose [try] body raises is left out and
    answered by one printed line with its path and [str(e)], every
    other entry is kept, in order; so the dataset has as many samples
    as there are entries that decode, and as many labels. *)
Theorem loader_skips_undecodable_entries (E : Env) (folder : string)
    (fno fyes : list string) :
  listdir E (os_path.join folder "no") = Ok fno →
  listdir E (os_path.join folder "yes") = Ok fyes →
  let no_dir := os_path.join folder "no" in
  let yes_dir := os_path.join folder "yes" in
  let run := SVM.load_images_from_folder E folder in
  ∃ X y,
    outcome run = Ok (X, y)
    ∧ X = decoded E no_dir fno ++ decoded E yes_dir fyes
    ∧ printed run = diagnostics E no_dir fno ++ diagnostics E yes_dir fyes
    ∧ length X
      = length (filter (λ f, decodes E (os_path.join no_dir f) = true) fno)
        + length (filter (λ f, decodes E (os_path.join yes_dir f) = true) fyes)
    ∧ length y = length X
    ∧ length X + length (printed run) = length fno + length fyes
    ∧ ∀ dir filenames filename e,
        (dir, filenames) ∈ [(no_dir, fno); (yes_dir, fyes)] →
        filename ∈ filenames →
        SVM.try_body E (os_path.join dir filename) = Raise e →
        "Error loading image " +:+ os_path.join dir filename +:+ ": " +:+ exn_str e
          ∈ printed run.
Proof.
  intros Hno Hyes no_dir yes_dir run. subst run.
  rewrite (load_images_listed E folder fno fyes Hno Hyes).
  cbn [outcome printed]. fold no_dir yes_dir.
  eexists _, _. split; [reflexivity|]. split; [reflexivity|]. split; [reflexivity|].
  pose proof (decoded_diagnostics_length E no_dir fno).
  pose proof (decoded_diagnostics_length E yes_dir fyes).
  rewrite !length_app, !length_replicate, <- !decoded_length.
  split_and!; [done|done|lia|].
  intros dir filenames filename e Hdir Hin Hraise.
  apply elem_of_app.
  apply elem_of_cons in Hdir as [[= -> ->]|Hdir];
    [|apply list_elem_of_singleton in Hdir as [= -> ->]].
  - left. by apply diagnostics_elem.
  - right. by apply diagnostics_elem.
Qed.

Lemma loader_skips_undecodable_entries_witness :
  ∃ X y,
    outcome (SVM.load_images_from_folder Demo.env "./brain_tumor_dataset") = Ok (X, y)
    ∧ length X = 4
    ∧ printed (SVM.load_images_from_folder Demo.env "./brain_tumor_dataset")
      = ["Error loading image ./brain_tumor_dataset/no/notes.txt: cannot identify image file";
         "Error loading image ./brain_tumor_dataset/yes/cut.jpg: image file is truncated"].
Proof.
  destruct (loader_skips_undecodable_entries Demo.env "./brain_tumor_dataset"
              ["n1.jpg"; "notes.txt"; "n2.jpg"] ["y1.jpg"; "y2.jpg"; "cut.jpg"]
              eq_refl eq_refl)
    as (X & y & Hrun & _ & Hprinted & HX & _).
  exists X, y. split; [exact Hrun|]. split.
  - rewrite HX. by vm_compute.
  - rewrite Hprinted. by vm_compute.
Defined.

Lemma decoded_grayscale (E : Env) path filenames :
  decoded E path filenames
  = (λ g, np.flatten (np.array (Image.resize E g (64, 64))))
      <$> omap (λ filename, grayscale_of E (os_path.join path filename)) filenames.
Proof.
  unfold decoded, grayscale_of, SVM.try_body.
  induction filenames as [|filename rest IH]; [done|].
  cbn [omap list_omap].
  destruct (Image_open E (os_path.join path filename)) as [f|];
    cbn [mbind result_bind]; [|exact IH].
  destruct (PIL.convert_L f) as [g|]; cbn [mbind result_bind]; [|exact IH].
  rewrite fmap_cons. f_equal. exact IH.
Qed.

(** C7. Every sample the loader returns comes from an entry of one of
    the two listings: it is the row-major flattening of that file's own
    single-channel image, resized to 64x64, so 4096 bytes, the byte at
    [r * 64 + c] being the resized pixel of row [r], column [c].  The
    dataset is exactly that, for the entries of [no] that open and
    convert, in listing order, followed by those of [yes], in listing
    order; the labels are 0s followed by 1s. *)
Theorem loader_samples_shape_and_order (E : Env) (folder : string)
    (X : list (list Byte.byte)) (y : list nat) :
  outcome (SVM.load_images_from_folder E folder) = Ok (X, y) →
  (∀ img, img ∈ X →
     length img = 4096
     ∧ ∃ (subfolder : string) (filenames : list string) (filename : string)
         (f : PIL.ImageFile) (g : PIL.GrayImage),
         subfolder ∈ ["no"; "yes"]
         ∧ listdir E (os_path.join folder subfolder) = Ok filenames
         ∧ filename ∈ filenames
         ∧ Image_open E (os_path.join (os_path.join folder subfolder) filename) = Ok f
         ∧ PIL.convert_L f = Ok g
         ∧ let resized := Image.resize E g (64, 64) in
           PIL.width resized = 64 ∧ PIL.height resized = 64
           ∧ img = np.flatten (np.array resized)
           ∧ ∀ r c, r < 64 → c < 64 →
               img !! (r * 64 + c) = Some (PIL.px resized c r))
  ∧ ∃ fno fyes,
      listdir E (os_path.join folder "no") = Ok fno
      ∧ listdir E (os_path.join folder "yes") = Ok fyes
      ∧ X = decoded E (os_path.join folder "no") fno
            ++ decoded E (os_path.join folder "yes") fyes
      ∧ y = replicate (length (decoded E (os_path.join folder "no") fno)) 0
            ++ replicate (length (decoded E (os_path.join folder "yes") fyes)) 1
      ∧ X = (λ g, np.flatten (np.array (Image.resize E g (64, 64))))
              <$> (omap (λ filename,
                           grayscale_of E
                             (os_path.join (os_path.join folder "no") filename)) fno
                   ++ omap (λ filename,
                              grayscale_of E
                                (os_path.join (os_path.join folder "yes") filename)) fyes).
Proof.
  intros Hrun.
  destruct (load_images_returns E folder X y Hrun) as (fno & fyes & Hno & Hyes).
  rewrite (load_images_listed E folder fno fyes Hno Hyes) in Hrun.
  cbn [outcome] in Hrun. injection Hrun as <- <-.
  split.
  - intros img Himg.
    assert (∃ subfolder filenames filename,
              subfolder ∈ ["no"; "yes"]
              ∧ listdir E (os_path.join folder subfolder) = Ok filenames
              ∧ filename ∈ filenames
              ∧ SVM.try_body E (os_path.join (os_path.join folder subfolder) filename)
                = Ok img) as (subfolder & filenames & filename & Hsub & Hlist & Hin & Hdec).
    { apply elem_of_app in Himg as [Himg|Himg];
        apply decoded_elem in Himg as (filename & Hin & Hdec).
      - exists "no", fno, filename. split_and!; [apply list_elem_of_here|done..].
      - exists "yes", fyes, filename.
        split_and!; [apply list_elem_of_further, list_elem_of_here|done..]. }
    apply try_body_ok in Hdec as (f & g & Hopen & Hconv & ->).
    split; [by rewrite flatten_array_length|].
    exists subfolder, filenames, filename, f, g.
    do 5 (split; [done|]). intros resized.
    split_and!; [done..|].
    intros r c Hr Hc.
    exact (flatten_array_lookup resized r c Hr Hc).
  - exists fno, fyes. split_and!; [done..|].
    by rewrite !decoded_grayscale, fmap_app.
Qed.

Lemma loader_samples_shape_and_order_witness :
  length <$> Demo.dataset.1 = [4096; 4096; 4096; 4096]
  ∧ Demo.dataset.2 = [0; 0; 1; 1]
  ∧ Demo.dataset.1 !! 0
    = Some (np.flatten (np.array (Image.resize Demo.env (Demo.tile Byte.x10) (64, 64)))).
Proof.
  destruct (loader_samples_shape_and_order Demo.env "./brain_tumor_dataset"
              Demo.dataset.1 Demo.dataset.2)
    as [_ (fno & fyes & Hno & Hyes & _ & _ & HX)]; [by vm_compute|].
  split_and!; [by vm_compute..|].
  vm_compute in Hno. vm_compute in Hyes.
  injection Hno as <-. injection Hyes as <-.
  rewrite HX. by vm_compute.
Defined.

(** C10. When [os.listdir] raises for the [no] or for the [yes]
    directory, that exception leaves [load_images_from_folder]
    uncaught, and the notebook's cell ends with it: neither notebook
    reaches the splitter. *)
Theorem missing_category_directory_aborts {F} `{Numerics F} (E : Env)
    (folder : string) (e : Exn) :
  listdir E (os_path.join folder "no") = Raise e
  ∨ (∃ fno, listdir E (os_path.join folder "no") = Ok fno
            ∧ listdir E (os_path.join folder "yes") = Raise e) →
  outcome (SVM.load_images_from_folder E folder) = Raise e
  ∧ outcome (RNN.load_images_from_folder E folder) = Raise e
  ∧ (folder = "./brain_tumor_dataset" →
     outcome (SVM.cell E) = Raise e ∧ outcome (RNN.cell E) = Raise e).
Proof.
  intros Hlist.
  pose proof (load_images_listdir_raises E folder e Hlist) as Hload.
  split; [done|]. split; [exact Hload|]. intros ->. split.
  - unfold SVM.cell, SVM.load_split_scale, SVM.data_folder.
    rewrite Hload. cbn [outcome]. done.
  - unfold RNN.cell, RNN.load_split_scale, RNN.data_folder.
    change (RNN.load_images_from_folder E "./brain_tumor_dataset")
      with (SVM.load_images_from_folder E "./brain_tumor_dataset").
    rewrite Hload. cbn [outcome]. done.
Qed.

Lemma missing_category_directory_aborts_witness :
  outcome (SVM.load_images_from_folder Demo.env_no_yes "./brain_tumor_dataset")
    = Raise Demo.FileNotFoundError
  ∧ outcome (SVM.cell (H := Demo.Q_numerics) Demo.env_no_yes)
    = Raise Demo.FileNotFoundError.
Proof.
  destruct (missing_category_directory_aborts (H := Demo.Q_numerics)
              Demo.env_no_yes "./brain_tumor_dataset" Demo.FileNotFoundError)
    as (Hload & _ & Hcell).
  - right. exists ["n1.jpg"; "notes.txt"; "n2.jpg"]. split; by vm_compute.
  - split; [exact Hload|]. exact (proj1 (Hcell eq_refl)).
Defined.

(** ** The splitter *)

Section validate.

Lemma Qle_bool_false_lt (a b : Q) : (b < a)%Q → Qle_bool a b = false.
Proof.
  intros Hlt. destruct (Qle_bool a b) eqn:Hle; [|done].
  apply Qle_bool_iff in Hle. by apply Qle_not_lt in Hle.
Qed.

Lemma Qceiling_pos (x : Q) : (0 < x)%Q → (0 < Qceiling x)%Z.
Proof.
  intros Hx. pose proof (Qle_ceiling x) as Hc.
  assert (0 < inject_Z (Qceiling x))%Q as Hpos by (eapply Qlt_le_trans; eauto).
  unfold Qlt in Hpos. cbn in Hpos. lia.
Qed.

Lemma Qmult_inject_pos (q : Q) (n : nat) :
  (0 < q)%Q → 0 < n → (0 < q * inject_Z (Z.of_nat n))%Q.
Proof.
  intros Hq Hn. apply Qmult_lt_0_compat; [done|].
  unfold Qlt. cbn. lia.
Qed.

(** A quarter of [n], rounded up. *)
Lemma Qceiling_quarter (n : nat) :
  Qceiling ((1 # 4) * inject_Z (Z.of_nat n)) = ((Z.of_nat n + 3) / 4)%Z.
Proof.
  unfold Qceiling, Qfloor. cbn [Qopp Qmult inject_Z Qnum Qden].
  rewrite Pos.mul_1_r. destruct (Z.of_nat n) eqn:Hn; cbn [Z.mul Z.opp]; [done| |lia].
  pose proof (Z.div_mod (- Z.pos p) 4 ltac:(lia)).
  pose proof (Z.mod_pos_bound (- Z.pos p) 4 ltac:(lia)).
  pose proof (Z.div_mod (Z.pos p + 3) 4 ltac:(lia)).
  pose proof (Z.mod_pos_bound (Z.pos p + 3) 4 ltac:(lia)).
  rewrite Z.mul_1_l. lia.
Qed.

(** The first validation, of a float [test_size] in (0, 1) with no
    [train_size]. *)
Lemma validate_float (n : nat) (q d : Q) :
  (0 < q)%Q → (q < 1)%Q →
  sklearn._validate_shuffle_split n (sklearn.SizeFloat q) sklearn.SizeNone d
  = let n_test := Qceiling (q * inject_Z (Z.of_nat n)) in
    if (Z.of_nat n - n_test =? 0)%Z
    then Raise (ValueError "the resulting train set will be empty")
    else Ok ((Z.of_nat n - n_test)%Z, n_test).
Proof.
  intros H0 H1. unfold sklearn._validate_shuffle_split.
  cbn [sklearn.out_of_range orb].
  rewrite !Qle_bool_false_lt by done. cbn [orb].
  set (n_test := Qceiling _).
  replace (Z.of_nat n <? Z.of_nat n - n_test + n_test)%Z with false
    by (symmetry; apply Z.ltb_ge; lia).
  done.
Qed.

(** The second validation, inside [ShuffleSplit], of the two counts. *)
Lemma validate_counts (n : nat) (n_test n_train : Z) (d : Q) :
  (0 < n_test)%Z → (0 < n_train)%Z → (n_train + n_test = Z.of_nat n)%Z →
  sklearn._validate_shuffle_split n (sklearn.SizeInt n_test) (sklearn.SizeInt n_train) d
  = Ok (n_train, n_test).
Proof.
  intros Ht Hr Hsum. unfold sklearn._validate_shuffle_split.
  cbn [sklearn.out_of_range].
  replace (Z.of_nat n <=? n_test)%Z with false by (symmetry; apply Z.leb_gt; lia).
  replace (n_test <=? 0)%Z with false by (symmetry; apply Z.leb_gt; lia).
  replace (Z.of_nat n <=? n_train)%Z with false by (symmetry; apply Z.leb_gt; lia).
  replace (n_train <=? 0)%Z with false by (symmetry; apply Z.leb_gt; lia).
  cbn [orb].
  replace (Z.of_nat n <? n_train + n_test)%Z with false
    by (symmetry; apply Z.ltb_ge; lia).
  replace (n_train =? 0)%Z with false by (symmetry; apply Z.eqb_neq; lia).
  done.
Qed.

End validate.

Section splitter.
Context (E : Env) {A B : Type} `{Inhabited A, Inhabited B}.
Implicit Types (X : list A) (y : list B).

Lemma take_rows_length {C} `{Inhabited C} (a : list C) (idx : list nat) :
  length (np.take_rows a idx) = length idx.
Proof. unfold np.take_rows. by rewrite length_fmap. Qed.

Lemma indices_partition seed n n_test :
  good_rng E → (0 ≤ n_test ≤ Z.of_nat n)%Z →
  test_indices E seed n n_test ++ train_indices E seed n n_test = permutation E seed n
  ∧ length (test_indices E seed n n_test) = Z.to_nat n_test
  ∧ length (train_indices E seed n n_test) = n - Z.to_nat n_test.
Proof.
  intros Hrng Hk. unfold test_indices, train_indices.
  assert (length (permutation E seed n) = n) as Hlen.
  { rewrite (Permutation_length (Hrng seed n)). apply length_seq. }
  rewrite (take_ge (drop _ _)) by (rewrite length_drop; lia).
  rewrite take_drop, length_take, length_drop. split_and!; [done|lia..].
Qed.

(** [train_test_split] cuts both arrays by index arrays that depend on
    the number of samples only. *)
Lemma train_test_split_indices (Xs : list A) (ys : list B)
    (s : sklearn.size_arg) (seed : Z) :
  sklearn.train_test_split E Xs ys s seed
  = if negb (bool_decide (length Xs = length ys)) then
      Raise (ValueError "Found input variables with inconsistent numbers of samples")
    else
      '(train, test) ← split_indices E (length Xs) s seed;
      Ok (np.take_rows Xs train, np.take_rows Xs test,
          np.take_rows ys train, np.take_rows ys test).
Proof.
  unfold sklearn.train_test_split, split_indices.
  destruct (negb _); [done|].
  by destruct (sklearn._validate_shuffle_split _ _ _ _) as [[n_train n_test]|].
Qed.

(** The index arrays exist whenever the rounded-up test count leaves a
    sample for training. *)
Lemma split_indices_float (n : nat) (q : Q) (seed : Z) :
  (0 < q)%Q → (q < 1)%Q →
  let n_test := Qceiling (q * inject_Z (Z.of_nat n)) in
  (n_test < Z.of_nat n)%Z →
  (0 < n_test)%Z
  ∧ split_indices E n (sklearn.SizeFloat q) seed
    = Ok (train_indices E seed n n_test, test_indices E seed n n_test).
Proof.
  intros Hq0 Hq1 n_test Hlt.
  assert (0 ≤ n_test)%Z as Hnn.
  { subst n_test. rewrite <- (Qceiling_Z 0). apply Qceiling_resp_le.
    apply Qmult_le_0_compat; [by apply Qlt_le_weak|].
    unfold Qle. cbn. lia. }
  assert (0 < n_test)%Z as Hpos.
  { apply Qceiling_pos, Qmult_inject_pos; [done|lia]. }
  split; [done|].
  unfold split_indices.
  rewrite validate_float by done. cbv zeta. fold n_test.
  replace (Z.of_nat n - n_test =? 0)%Z with false
    by (symmetry; apply Z.eqb_neq; lia).
  cbn [mbind result_bind]. unfold sklearn.split.
  cbn [sklearn.test_size sklearn.train_size sklearn.random_state].
  rewrite validate_counts by lia. reflexivity.
Qed.

(** The splitter returns whenever the index arrays exist, and then with
    these rows. *)
Lemma train_test_split_float X y (q : Q) (seed : Z) :
  length X = length y → (0 < q)%Q → (q < 1)%Q →
  let n := length X in
  let n_test := Qceiling (q * inject_Z (Z.of_nat n)) in
  (n_test < Z.of_nat n)%Z →
  (0 < n_test)%Z
  ∧ sklearn.train_test_split E X y (sklearn.SizeFloat q) seed
    = Ok (np.take_rows X (train_indices E seed n n_test),
          np.take_rows X (test_indices E seed n n_test),
          np.take_rows y (train_indices E seed n n_test),
          np.take_rows y (test_indices E seed n n_test)).
Proof.
  intros Hlen Hq0 Hq1 n n_test Hlt.
  destruct (split_indices_float n q seed Hq0 Hq1 Hlt) as [Hpos Hidx].
  split; [done|].
  rewrite train_test_split_indices, bool_decide_true by done. cbn [negb].
  fold n. by rewrite Hidx.
Qed.

Lemma quarter_leaves_training (n : nat) :
  (2 ≤ n)%nat → (Qceiling ((1 # 4) * inject_Z (Z.of_nat n)) < Z.of_nat n)%Z.
Proof.
  intros Hn. rewrite Qceiling_quarter.
  apply Z.div_lt_upper_bound; lia.
Qed.

End splitter.

Lemma demo_rng_good : good_rng Demo.env.
Proof. intros seed n. cbn. symmetry. apply Permutation_rev. Qed.

(** ** Claims about the splitter *)




(** C6, as the code has it.  With [test_size = 0.25] and two samples or
    more the test subset gets a quarter of the samples rounded up,
    [ceil(0.25 * n) = (n + 3) / 4], and the train subset the rest. *)
Theorem test_subset_is_quarter_rounded_up (E : Env) {A B : Type}
    `{Inhabited A, Inhabited B} (X : list A) (y : list B) :
  good_rng E →
  length X = length y → (2 ≤ length X)%nat →
  ∃ X_train X_test y_train y_test,
    sklearn.train_test_split E X y (sklearn.SizeFloat (1 # 4)) 90
    = Ok (X_train, X_test, y_train, y_test)
    ∧ Z.of_nat (length X_test)
      = Qceiling ((1 # 4) * inject_Z (Z.of_nat (length X)))
    ∧ length X_test = ((length X + 3) / 4)%nat
    ∧ length X_train = (length X - length X_test)%nat
    ∧ length y_test = length X_test
    ∧ length y_train = length X_train.
Proof.
  intros Hrng Hlen Hn.
  set (n := length X) in *.
  pose proof (quarter_leaves_training n Hn) as Hlt.
  destruct (train_test_split_float E X y (1 # 4) 90 Hlen eq_refl eq_refl Hlt)
    as [Hpos Hsplit].
  fold n in Hsplit.
  set (n_test := Qceiling ((1 # 4) * inject_Z (Z.of_nat n))) in *.
  change (0 < n_test)%Z in Hpos.
  assert (0 ≤ n_test ≤ Z.of_nat n)%Z as Hrange by lia.
  destruct (indices_partition E 90 n n_test Hrng Hrange) as (_ & Hte & Htr).
  eexists _, _, _, _. split; [exact Hsplit|].
  rewrite !take_rows_length, Hte, Htr.
  assert (Z.to_nat n_test = ((n + 3) / 4)%nat) as Hq.
  { subst n_test. rewrite Qceiling_quarter.
    rewrite <- (Nat2Z.id ((n + 3) / 4)). f_equal.
    rewrite Nat2Z.inj_div. f_equal. lia. }
  split_and!; [lia|done..].
Qed.

Lemma test_subset_is_quarter_rounded_up_witness :
  ∃ X_train X_test y_train y_test,
    sklearn.train_test_split Demo.env Demo.X6 Demo.y6 (sklearn.SizeFloat (1 # 4)) 90
    = Ok (X_train, X_test, y_train, y_test)
    ∧ length X_test = 2 ∧ length X_train = 4.
Proof.
  destruct (test_subset_is_quarter_rounded_up Demo.env Demo.X6 Demo.y6)
    as (X_train & X_test & y_train & y_test & Hsplit & _ & Hte & Htr & _).
  - exact demo_rng_good.
  - reflexivity.
  - cbn. lia.
  - exists X_train, X_test, y_train, y_test.
    split; [exact Hsplit|]. split; [exact Hte|]. rewrite Htr, Hte. reflexivity.
Defined.

(** C6 as stated fails: of five samples the splitter puts two into the
    test subset, while [round(0.25 * 5) = round(1.25) = 1]. *)
Lemma test_subset_is_not_round_counterexample :
  good_rng Demo.env
  ∧ length Demo.X5 = length Demo.y5 ∧ (2 ≤ length Demo.X5)%nat
  ∧ py.round ((1 # 4) * inject_Z (Z.of_nat (length Demo.X5))) = 1%Z
  ∧ ∃ X_train X_test y_train y_test,
      sklearn.train_test_split Demo.env Demo.X5 Demo.y5 (sklearn.SizeFloat (1 # 4)) 90
      = Ok (X_train, X_test, y_train, y_test)
      ∧ length X_test = 2 ∧ length X_train = 3.
Proof.
  split; [exact demo_rng_good|].
  split_and!; [reflexivity|cbn; lia|by vm_compute|].
  eexists _, _, _, _. split_and!; by vm_compute.
Qed.

(** C8. With [test_size = 0.25] the splitter raises a [ValueError] on
    every dataset of fewer than two samples, and with it the rest of
    the cell. *)
Theorem split_raises_below_two_samples {F} `{Numerics F} (E : Env)
    (X : list (list Byte.byte)) (y : list nat) :
  (length X < 2)%nat →
  (∃ e, sklearn.train_test_split E X y (sklearn.SizeFloat (1 # 4)) 90 = Raise e
        ∧ exn_class e = "ValueError")
  ∧ (∃ e, SVM.split_and_scale E X y = Raise e ∧ exn_class e = "ValueError").
Proof.
  intros Hn.
  assert (∃ e, sklearn.train_test_split E X y (sklearn.SizeFloat (1 # 4)) 90 = Raise e
               ∧ exn_class e = "ValueError") as (e & Hsplit & He).
  { unfold sklearn.train_test_split.
    case_bool_decide; cbn [negb]; [|eexists; split; reflexivity].
    destruct X as [|x0 [|x1 X]]; [eexists; split; reflexivity..|cbn in Hn; lia]. }
  split; [by exists e|].
  exists e. unfold SVM.split_and_scale. by rewrite Hsplit.
Qed.

Lemma split_raises_below_two_samples_witness :
  ∃ e, sklearn.train_test_split Demo.env (take 1 Demo.X2) (take 1 Demo.y2)
         (sklearn.SizeFloat (1 # 4)) 90 = Raise e
       ∧ exn_class e = "ValueError".
Proof.
  apply (split_raises_below_two_samples (H := Demo.Q_numerics) Demo.env
           (take 1 Demo.X2) (take 1 Demo.y2)).
  cbn. lia.
Defined.

(** ** The scaler *)

Section scaler_facts.
Context {F : Type} `{Numerics F} (E : Env).
Implicit Types (X : list (list Byte.byte)) (sc : sklearn.StandardScaler F).

Lemma check_array_ok X Xf n_features :
  sklearn.check_array X = Ok (Xf, n_features) →
  Xf = sklearn.as_float X ∧ X ≠ [] ∧ (0 < n_features)%nat
  ∧ Forall (λ row, length row = n_features) X.
Proof.
  unfold sklearn.check_array. destruct X as [|row X]; [done|].
  case_bool_decide; [done|]. case_bool_decide; cbn [negb]; [|done].
  intros [= <- <-]. split_and!; [done|done|lia|done].
Qed.

Lemma fit_ok X sc :
  sklearn.fit X = Ok sc →
  length (sklearn.mean_ sc) = sklearn.n_features_in_ sc
  ∧ length (sklearn.scale_ sc) = sklearn.n_features_in_ sc.
Proof.
  unfold sklearn.fit. destruct (sklearn.check_array X) as [[Xf n]|]; [|done].
  cbn [mbind result_bind]. intros [= <-]. cbn.
  by rewrite !length_fmap, !length_seq.
Qed.

Lemma transform_ok sc X Xt :
  sklearn.transform sc X = Ok Xt →
  Xt = sklearn.scale_row sc <$> sklearn.as_float X
  ∧ Forall (λ row, length row = sklearn.n_features_in_ sc) X.
Proof.
  unfold sklearn.transform.
  destruct (sklearn.check_array X) as [[Xf n]|] eqn:Hcheck; [|done].
  cbn [mbind result_bind]. case_bool_decide; cbn [negb]; [|done].
  intros [= <-]. apply check_array_ok in Hcheck as (-> & _ & _ & Hrows).
  by subst.
Qed.

Lemma fit_transform_ok X sc Xt :
  sklearn.fit_transform X = Ok (sc, Xt) →
  sklearn.fit X = Ok sc ∧ sklearn.transform sc X = Ok Xt.
Proof.
  unfold sklearn.fit_transform. destruct (sklearn.fit X) as [sc'|]; [|done].
  cbn [mbind result_bind].
  destruct (sklearn.transform sc' X) as [Xt'|] eqn:Htr; [|done].
  cbn [mbind result_bind]. by intros [= <- <-].
Qed.

(** One entry of a scaled row. *)
Lemma scale_row_lookup sc (row : list F) c v m s :
  row !! c = Some v → sklearn.mean_ sc !! c = Some m →
  sklearn.scale_ sc !! c = Some s →
  sklearn.scale_row sc row !! c = Some (fdiv (fsub v m) s).
Proof.
  intros Hv Hm Hs. unfold sklearn.scale_row.
  assert (zip row (zip (sklearn.mean_ sc) (sklearn.scale_ sc)) !! c
          = Some (v, (m, s))) as Hzip.
  { apply lookup_zip_with_Some. exists v, (m, s). split_and!; [done..|].
    apply lookup_zip_with_Some. by exists m, s. }
  by rewrite list_lookup_fmap, Hzip.
Qed.



(** What a run of the splitter and the scaler has done. *)
Lemma split_and_scale_ok X (y : list nat) (p : Prepared F) :
  SVM.split_and_scale E X y = Ok p →
  length X = length y
  ∧ ∃ ind_train ind_test,
      split_indices E (length X) (sklearn.SizeFloat (1 # 4)) 90
        = Ok (ind_train, ind_test)
      ∧ sklearn.fit (np.take_rows X ind_train) = Ok (scaler p)
      ∧ sklearn.transform (scaler p) (np.take_rows X ind_train) = Ok (X_train p)
      ∧ sklearn.transform (scaler p) (np.take_rows X ind_test) = Ok (X_test p)
      ∧ y_train p = np.take_rows y ind_train
      ∧ y_test p = np.take_rows y ind_test.
Proof.
  unfold SVM.split_and_scale. rewrite train_test_split_indices.
  case_bool_decide as Hlen; cbn [negb]; [|done].
  destruct (split_indices E (length X) _ 90) as [[ind_train ind_test]|]; [|done].
  cbn [mbind result_bind].
  destruct (sklearn.fit_transform (np.take_rows X ind_train)) as [[sc Xt]|] eqn:Hft;
    [|done].
  cbn [mbind result_bind].
  destruct (sklearn.transform sc (np.take_rows X ind_test)) as [Xte|] eqn:Hte; [|done].
  cbn [mbind result_bind]. intros [= <-]. cbn [scaler X_train X_test y_train y_test].
  apply fit_transform_ok in Hft as [Hfit Htr].
  split; [done|]. by exists ind_train, ind_test.
Qed.

(** The checks of the scaler pass on a rectangular array with a row. *)
Lemma check_array_rect X d :
  X ≠ [] → (0 < d)%nat → Forall (λ row, length row = d) X →
  sklearn.check_array X = Ok (sklearn.as_float X, d).
Proof.
  intros Hne Hd Hrows. unfold sklearn.check_array.
  destruct X as [|row X]; [done|].
  pose proof (Forall_inv Hrows) as Hrow. cbn beta in Hrow.
  rewrite bool_decide_false by lia. rewrite Hrow.
  by rewrite bool_decide_true.
Qed.

Lemma take_rows_Forall {A} `{Inhabited A} (P : A → Prop) (a : list A) (idx : list nat) :
  Forall P a → Forall (λ i, (i < length a)%nat) idx → Forall P (np.take_rows a idx).
Proof.
  intros Ha Hidx. unfold np.take_rows. apply Forall_fmap.
  eapply Forall_impl; [exact Hidx|]. intros i Hi. cbn.
  destruct (lookup_lt_is_Some_2 a i Hi) as [x Hx].
  rewrite (list_lookup_total_correct _ _ _ Hx).
  by eapply Forall_lookup_1.
Qed.

Lemma indices_in_range seed n n_test :
  good_rng E → (0 ≤ n_test ≤ Z.of_nat n)%Z →
  Forall (λ i, (i < n)%nat) (train_indices E seed n n_test)
  ∧ Forall (λ i, (i < n)%nat) (test_indices E seed n n_test).
Proof.
  intros Hrng Hk.
  destruct (indices_partition E seed n n_test Hrng Hk) as (Happ & _ & _).
  assert (Forall (λ i, (i < n)%nat) (permutation E seed n)) as Hall.
  { rewrite (Hrng seed n). apply Forall_forall. intros i Hi.
    apply elem_of_seq in Hi. lia. }
  rewrite <- Happ in Hall. apply Forall_app in Hall as [Hte Htr]. done.
Qed.

(** On a rectangular dataset of two samples or more the splitter and
    the scaler return. *)
Lemma split_and_scale_returns X (y : list nat) d :
  good_rng E → length X = length y → (2 ≤ length X)%nat →
  (0 < d)%nat → Forall (λ row, length row = d) X →
  ∃ p : Prepared F, SVM.split_and_scale E X y = Ok p.
Proof.
  intros Hrng Hlen Hn Hd Hrows.
  pose proof (quarter_leaves_training (length X) Hn) as Hlt.
  destruct (train_test_split_float E X y (1 # 4) 90 Hlen eq_refl eq_refl Hlt)
    as [Hpos Hsplit].
  set (n_test := Qceiling ((1 # 4) * inject_Z (Z.of_nat (length X)))) in *.
  change (0 < n_test)%Z in Hpos.
  assert (0 ≤ n_test ≤ Z.of_nat (length X))%Z as Hrange by lia.
  destruct (indices_partition E 90 (length X) n_test Hrng Hrange) as (_ & Hte & Htr).
  destruct (indices_in_range 90 (length X) n_test Hrng Hrange) as [Hin_tr Hin_te].
  set (tr := train_indices E 90 (length X) n_test) in *.
  set (te := test_indices E 90 (length X) n_test) in *.
  assert (∀ idx, (0 < length idx)%nat → Forall (λ i, (i < length X)%nat) idx →
            sklearn.check_array (np.take_rows X idx)
            = Ok (sklearn.as_float (np.take_rows X idx), d)) as Hcheck.
  { intros idx Hpos_idx Hin. apply check_array_rect; [|done|].
    - intros Hnil. apply (f_equal length) in Hnil.
      rewrite take_rows_length in Hnil. cbn in Hnil. lia.
    - by apply take_rows_Forall. }
  unfold SVM.split_and_scale. rewrite Hsplit. cbn [mbind result_bind].
  unfold sklearn.fit_transform, sklearn.fit, sklearn.transform.
  rewrite !Hcheck by (done || lia).
  cbn [mbind result_bind sklearn.n_features_in_].
  repeat (rewrite bool_decide_true by done;
          cbn [negb mbind result_bind sklearn.n_features_in_]).
  by eexists.
Qed.


End scaler_facts.

(** ** The cell from end to end *)

Lemma decoded_rows (E : Env) path filenames :
  Forall (λ img, length img = 4096) (decoded E path filenames).
Proof.
  apply Forall_forall. intros img Himg.
  apply decoded_elem in Himg as (filename & _ & Hdec).
  apply try_body_ok in Hdec as (f & g & _ & _ & ->).
  by rewrite flatten_array_length.
Qed.

(** With both directories listed and two entries or more that decode,
    the SVM notebook's cell runs to its closing [print]; a quarter of
    the samples, rounded up, is scaled as the test subset and the rest
    as the train subset. *)
Lemma cell_returns {F} `{Numerics F} (E : Env) (fno fyes : list string) :
  good_rng E →
  listdir E (os_path.join SVM.data_folder "no") = Ok fno →
  listdir E (os_path.join SVM.data_folder "yes") = Ok fyes →
  let n := (length (decoded E (os_path.join SVM.data_folder "no") fno)
            + length (decoded E (os_path.join SVM.data_folder "yes") fyes))%nat in
  (2 ≤ n)%nat →
  ∃ p : Prepared F,
    SVM.cell E
    = mkRun (diagnostics E (os_path.join SVM.data_folder "no") fno
               ++ diagnostics E (os_path.join SVM.data_folder "yes") fyes
               ++ ["Data loading and preprocessing complete."])
        (Ok p)
    ∧ length (X_test p) = ((n + 3) / 4)%nat
    ∧ length (X_train p) = (n - (n + 3) / 4)%nat.
Proof.
  intros Hrng Hno Hyes n Hn.
  set (dno := decoded E (os_path.join SVM.data_folder "no") fno) in *.
  set (dyes := decoded E (os_path.join SVM.data_folder "yes") fyes) in *.
  set (X := dno ++ dyes).
  set (y := replicate (length dno) 0 ++ replicate (length dyes) 1).
  assert (length X = n) as HX by (subst X n; by rewrite length_app).
  assert (length X = length y) as Hlen
    by (subst X y; by rewrite !length_app, !length_replicate).
  assert (Forall (λ row, length row = 4096) X) as Hrows
    by (apply Forall_app; split; apply decoded_rows).
  destruct (split_and_scale_returns E X y 4096 Hrng Hlen ltac:(lia) ltac:(lia) Hrows)
    as [p Hp].
  exists p. split.
  - unfold SVM.cell, SVM.load_split_scale.
    rewrite (load_images_listed E SVM.data_folder fno fyes Hno Hyes).
    cbv zeta. cbn [outcome printed]. fold dno dyes X y. rewrite Hp.
    cbn [outcome printed]. by rewrite <- app_assoc.
  - destruct (split_and_scale_ok E X y p Hp)
      as (_ & ind_train & ind_test & Hidx & _ & Htr & Hte & _).
    pose proof (quarter_leaves_training (length X) ltac:(lia)) as Hlt.
    destruct (split_indices_float E (length X) (1 # 4) 90 eq_refl eq_refl Hlt)
      as [Hpos Hidx'].
    rewrite Hidx in Hidx'. injection Hidx' as -> ->.
    set (n_test := Qceiling ((1 # 4) * inject_Z (Z.of_nat (length X)))) in *.
    change (0 < n_test)%Z in Hpos.
    assert (0 ≤ n_test ≤ Z.of_nat (length X))%Z as Hrange by lia.
    destruct (indices_partition E 90 (length X) n_test Hrng Hrange) as (_ & Hlte & Hltr).
    apply transform_ok in Htr as [-> _]. apply transform_ok in Hte as [-> _].
    unfold sklearn.as_float. rewrite !length_fmap, !take_rows_length, Hlte, Hltr.
    assert (Z.to_nat n_test = ((length X + 3) / 4)%nat) as ->.
    { subst n_test. rewrite Qceiling_quarter.
      rewrite <- (Nat2Z.id ((length X + 3) / 4)). f_equal.
      rewrite Nat2Z.inj_div. f_equal. lia. }
    by rewrite HX.
Qed.

(** ** Claims about the scaler, the shape adapter and the two notebooks *)

Section fitted_parameters.
Context {F : Type} `{Numerics F}.



End fitted_parameters.



Section constant_column.
#[local] Existing Instance Demo.Q_numerics.


End constant_column.

(** ** Slicing a buffer into steps *)

Section chunks.
Context {A : Type}.
Implicit Types (l : list A) (rows : list (list A)).

Lemma chunks_length count k l : length (np.chunks count k l) = count.
Proof. revert l. induction count as [|c IH]; intros l; cbn; [done|]. by rewrite IH. Qed.

Lemma chunks_widths count k l :
  length l = (count * k)%nat →
  Forall (λ step, length step = k) (np.chunks count k l).
Proof.
  revert l. induction count as [|c IH]; intros l Hl; cbn; [done|].
  constructor.
  - rewrite length_take. lia.
  - apply IH. rewrite length_drop. lia.
Qed.

(** Putting the slices back in a row gives the buffer. *)
Lemma chunks_flatten count k l :
  length l = (count * k)%nat → np.flatten (np.chunks count k l) = l.
Proof.
  unfold np.flatten. revert l. induction count as [|c IH]; intros l Hl; cbn.
  - by destruct l.
  - rewrite IH by (rewrite length_drop; lia). apply take_drop.
Qed.

(** Slicing a row of slices gives the slices. *)
Lemma chunks_of_concat rows k :
  Forall (λ row, length row = k) rows →
  np.chunks (length rows) k (concat rows) = rows.
Proof.
  induction 1 as [|row rows Hrow _ IH]; cbn; [done|].
  rewrite take_app_length', drop_app_length' by done. by rewrite IH.
Qed.

Lemma chunks_app a b k l1 l2 :
  length l1 = (a * k)%nat →
  np.chunks (a + b) k (l1 ++ l2) = np.chunks a k l1 ++ np.chunks b k l2.
Proof.
  revert l1. induction a as [|a IH]; intros l1 Hl; cbn.
  - by destruct l1.
  - rewrite take_app_le, drop_app_le by lia.
    rewrite IH by (rewrite length_drop; lia). done.
Qed.

(** Slice [i] starts [i * k] items into the buffer. *)
Lemma chunks_lookup count k l i :
  (i < count)%nat → np.chunks count k l !! i = Some (take k (drop (i * k) l)).
Proof.
  revert l i. induction count as [|c IH]; intros l i Hi; [lia|].
  destruct i as [|i]; cbn; [done|].
  rewrite IH by lia. by rewrite drop_drop, (Nat.add_comm k).
Qed.

(** The steps of every row, cut from the buffer of all rows. *)
Lemma chunks_rows rows d1 d2 :
  Forall (λ row, length row = (d1 * d2)%nat) rows →
  np.chunks (length rows * d1) d2 (concat rows)
  = concat (np.chunks d1 d2 <$> rows).
Proof.
  induction 1 as [|row rows Hrow _ IH]; cbn; [done|].
  rewrite chunks_app by done. by rewrite IH.
Qed.

End chunks.

Lemma reshape_rows {A} (rows : list (list A)) d1 d2 :
  Forall (λ row, length row = (d1 * d2)%nat) rows →
  np.reshape rows (length rows, d1, d2) = Ok (np.chunks d1 d2 <$> rows).
Proof.
  intros Hrows. unfold np.reshape, np.flatten.
  rewrite decide_True
    by (rewrite (concat_uniform_length _ (d1 * d2)) by done; lia).
  rewrite chunks_rows by done. f_equal.
  rewrite <- (length_fmap (np.chunks d1 d2) rows) at 1.
  apply chunks_of_concat, Forall_fmap, Forall_forall.
  intros row _. apply chunks_length.
Qed.

(** C5. On rows of 4096 values the shape adapter returns, row by row,
    64 steps of 64 values whose flattening is the row again: nothing is
    added, dropped or changed, and step [i] is the slice of the row
    that starts at [i * 64], the i-th row of the flattened 64x64 image.
    When the number of values is not the number of rows times 64 times
    64, the reshape raises. *)
Theorem shape_adapter_is_a_relabeling {F : Type} (X : list (list F)) :
  (Forall (λ row, length row = 4096) X →
   ∃ S, RNN.shape_adapter X = Ok S
     ∧ length S = length X
     ∧ np.flatten <$> S = X
     ∧ length (np.flatten (np.flatten S)) = length (np.flatten X)
     ∧ ∀ s row, X !! s = Some row →
         ∃ steps, S !! s = Some steps
           ∧ length steps = 64 ∧ Forall (λ step, length step = 64) steps
           ∧ np.flatten steps = row
           ∧ (∀ i, (i < 64)%nat → steps !! i = Some (take 64 (drop (i * 64) row)))
           ∧ (∀ i k, (i < 64)%nat → (k < 64)%nat →
                steps !! i ≫= (.!! k) = row !! (i * 64 + k)%nat))
  ∧ (length (np.flatten X) ≠ (length X * 64 * 64)%nat →
     ∃ e, RNN.shape_adapter X = Raise e ∧ exn_class e = "ValueError").
Proof.
  split.
  - intros Hrows. exists (np.chunks 64 64 <$> X).
    assert (np.flatten <$> (np.chunks 64 64 <$> X) = X) as Hflat.
    { rewrite <- list_fmap_compose. rewrite <- (list_fmap_id X) at 2.
      apply Forall_fmap_ext. eapply Forall_impl; [exact Hrows|].
      intros row Hrow. exact (chunks_flatten 64 64 row Hrow). }
    split_and!.
    + unfold RNN.shape_adapter. by apply reshape_rows.
    + by rewrite length_fmap.
    + exact Hflat.
    + unfold np.flatten at 1 3. f_equal.
      rewrite <- Hflat at 2. unfold np.flatten.
      generalize (np.chunks 64 64 <$> X). intros S.
      induction S as [|steps S IH]; cbn; [done|]. by rewrite concat_app, IH.
    + intros s row Hs. exists (np.chunks 64 64 row).
      assert (length row = (64 * 64)%nat) as Hrow
        by (eapply Forall_lookup_1 in Hrows; eauto).
      split_and!.
      * by rewrite list_lookup_fmap, Hs.
      * apply chunks_length.
      * by apply chunks_widths.
      * by apply chunks_flatten.
      * intros i Hi. by apply chunks_lookup.
      * intros i k Hi Hk. rewrite chunks_lookup by done. cbn.
        by rewrite lookup_take_lt, lookup_drop.
  - intros Hsize. unfold RNN.shape_adapter, np.reshape.
    rewrite decide_False by done. by eexists.
Qed.

Lemma shape_adapter_is_a_relabeling_witness :
  (∃ S, RNN.shape_adapter [Demo.row4096] = Ok S ∧ np.flatten <$> S = [Demo.row4096])
  ∧ (∃ e, RNN.shape_adapter [Demo.row10] = Raise e ∧ exn_class e = "ValueError").
Proof.
  split.
  - destruct (proj1 (shape_adapter_is_a_relabeling [Demo.row4096]))
      as (S & Hrun & _ & Hflat & _).
    + repeat constructor.
    + by exists S.
  - apply (proj2 (shape_adapter_is_a_relabeling [Demo.row10])).
    by vm_compute.
Defined.

(** C9. The first three stages of the two notebooks are the same
    function of the environment: the same loader on every folder, the
    same splitter and scaler on every dataset, and so the same run,
    printed lines included, on the notebooks' data folder. *)
Theorem notebooks_share_first_three_stages {F} `{Numerics F} (E : Env) :
  (∀ folder, RNN.load_images_from_folder E folder = SVM.load_images_from_folder E folder)
  ∧ RNN.data_folder = SVM.data_folder
  ∧ (∀ X y, RNN.split_and_scale E X y = SVM.split_and_scale E X y)
  ∧ RNN.load_split_scale E = SVM.load_split_scale E.
Proof. split_and!; reflexivity. Qed.

(** * Further properties of the two notebooks *)

(** ** The first cell from end to end *)

Section cell_runs.
Context {F : Type} `{Numerics F} (E : Env).

Lemma train_test_split_small (X : list (list Byte.byte)) (y : list nat) :
  (length X < 2)%nat →
  ∃ e, sklearn.train_test_split E X y (sklearn.SizeFloat (1 # 4)) 90 = Raise e
       ∧ exn_class e = "ValueError".
Proof.
  intros Hn. unfold sklearn.train_test_split.
  case_bool_decide; cbn [negb]; [|eexists; split; reflexivity].
  destruct X as [|x0 [|x1 X]]; [eexists; split; reflexivity..|cbn in Hn; lia].
Qed.

(** The first three stages on a data folder whose listings succeed. *)
Lemma load_split_scale_listed fno fyes :
  listdir E (os_path.join SVM.data_folder "no") = Ok fno →
  listdir E (os_path.join SVM.data_folder "yes") = Ok fyes →
  let dno := decoded E (os_path.join SVM.data_folder "no") fno in
  let dyes := decoded E (os_path.join SVM.data_folder "yes") fyes in
  SVM.load_split_scale (F := F) E
  = mkRun
      (diagnostics E (os_path.join SVM.data_folder "no") fno
         ++ diagnostics E (os_path.join SVM.data_folder "yes") fyes)
      (SVM.split_and_scale E (dno ++ dyes)
         (replicate (length dno) 0 ++ replicate (length dyes) 1)).
Proof.
  intros Hno Hyes dno dyes. unfold SVM.load_split_scale.
  rewrite (load_images_listed E SVM.data_folder fno fyes Hno Hyes).
  reflexivity.
Qed.

Lemma scale_row_length (sc : sklearn.StandardScaler F) (row : list F) d :
  length row = d → length (sklearn.mean_ sc) = d → length (sklearn.scale_ sc) = d →
  length (sklearn.scale_row sc row) = d.
Proof.
  intros Hrow Hmean Hscale. unfold sklearn.scale_row.
  rewrite length_fmap, !length_zip_with. lia.
Qed.

(** The shape of what [transform] returns. *)
Lemma transform_shape (sc : sklearn.StandardScaler F) X Xt :
  length (sklearn.mean_ sc) = sklearn.n_features_in_ sc →
  length (sklearn.scale_ sc) = sklearn.n_features_in_ sc →
  sklearn.transform sc X = Ok Xt →
  length Xt = length X
  ∧ Forall (λ row, length row = sklearn.n_features_in_ sc) Xt.
Proof.
  intros Hmean Hscale Htr. apply transform_ok in Htr as [-> Hrows].
  unfold sklearn.as_float. rewrite !length_fmap. split; [done|].
  apply Forall_fmap, Forall_fmap. eapply Forall_impl; [exact Hrows|].
  intros row Hrow. cbn. apply scale_row_length; [|done..].
  by rewrite length_fmap.
Qed.

End cell_runs.

(** X1. With both directories listed and two entries or more that
    decode, the SVM notebook's first cell runs to its closing [print]:
    it prints the diagnostics of [no], those of [yes] and the closing
    line, and it scales a quarter of the samples, rounded up, as the
    test subset and the rest as the train subset. *)
Theorem svm_cell_completes {F} `{Numerics F} (E : Env) (fno fyes : list string) :
  good_rng E →
  listdir E (os_path.join SVM.data_folder "no") = Ok fno →
  listdir E (os_path.join SVM.data_folder "yes") = Ok fyes →
  let n := (length (decoded E (os_path.join SVM.data_folder "no") fno)
            + length (decoded E (os_path.join SVM.data_folder "yes") fyes))%nat in
  (2 ≤ n)%nat →
  ∃ p : Prepared F,
    SVM.cell E
    = mkRun (diagnostics E (os_path.join SVM.data_folder "no") fno
               ++ diagnostics E (os_path.join SVM.data_folder "yes") fyes
               ++ ["Data loading and preprocessing complete."])
        (Ok p)
    ∧ length (X_test p) = ((n + 3) / 4)%nat
    ∧ length (X_train p) = (n - (n + 3) / 4)%nat
    ∧ length (y_test p) = length (X_test p)
    ∧ length (y_train p) = length (X_train p).
Proof.
  intros Hrng Hno Hyes n Hn.
  destruct (cell_returns E fno fyes Hrng Hno Hyes Hn) as (p & Hcell & Hte & Htr).
  exists p. split_and!; [done..| |].
  - assert (outcome (SVM.cell E) = Ok p) as Hout by by rewrite Hcell.
    unfold SVM.cell, SVM.load_split_scale in Hout.
    rewrite (load_images_listed E SVM.data_folder fno fyes Hno Hyes) in Hout.
    cbv zeta in Hout. cbn [outcome printed] in Hout.
    destruct (SVM.split_and_scale E _ _) as [p'|] eqn:Hp; [|done].
    cbn [outcome] in Hout. injection Hout as ->.
    destruct (split_and_scale_ok E _ _ p Hp)
      as (_ & ind_train & ind_test & _ & _ & _ & Htest & _ & ->).
    apply transform_ok in Htest as [-> _].
    unfold sklearn.as_float. by rewrite !length_fmap, !take_rows_length.
  - assert (outcome (SVM.cell E) = Ok p) as Hout by by rewrite Hcell.
    unfold SVM.cell, SVM.load_split_scale in Hout.
    rewrite (load_images_listed E SVM.data_folder fno fyes Hno Hyes) in Hout.
    cbv zeta in Hout. cbn [outcome printed] in Hout.
    destruct (SVM.split_and_scale E _ _) as [p'|] eqn:Hp; [|done].
    cbn [outcome] in Hout. injection Hout as ->.
    destruct (split_and_scale_ok E _ _ p Hp)
      as (_ & ind_train & ind_test & _ & _ & Htrain & _ & -> & _).
    apply transform_ok in Htrain as [-> _].
    unfold sklearn.as_float. by rewrite !length_fmap, !take_rows_length.
Qed.

Lemma svm_cell_completes_witness :
  ∃ p : Prepared Q,
    outcome (SVM.cell (H := Demo.Q_numerics) Demo.env) = Ok p
    ∧ length (X_test p) = 1 ∧ length (X_train p) = 3.
Proof.
  destruct (svm_cell_completes (H := Demo.Q_numerics) Demo.env
              ["n1.jpg"; "notes.txt"; "n2.jpg"] ["y1.jpg"; "y2.jpg"; "cut.jpg"]
              demo_rng_good eq_refl eq_refl)
    as (p & Hcell & Hte & Htr & _).
  - vm_compute. lia.
  - exists p. rewrite Hcell. split; [done|].
    rewrite Hte, Htr. split; by vm_compute.
Defined.

Section split_shape.
Context {F : Type} `{Numerics F} (E : Env).

(** The index arrays of a split hold indices of the dataset. *)
Lemma split_indices_in_range n s seed ind_train ind_test :
  good_rng E →
  split_indices E n s seed = Ok (ind_train, ind_test) →
  Forall (λ i, (i < n)%nat) ind_train ∧ Forall (λ i, (i < n)%nat) ind_test.
Proof.
  intros Hrng. unfold split_indices, sklearn.split.
  destruct (sklearn._validate_shuffle_split n s _ _) as [[a b]|];
    cbn [mbind result_bind]; [|done].
  cbn [sklearn.test_size sklearn.train_size sklearn.random_state].
  destruct (sklearn._validate_shuffle_split n _ _ _) as [[a' b']|];
    cbn [mbind result_bind]; [|done].
  intros [= <- <-].
  assert (Forall (λ i, (i < n)%nat) (permutation E seed n)) as Hall.
  { rewrite (Hrng seed n). apply Forall_forall. intros i Hi.
    apply elem_of_seq in Hi. lia. }
  split; [apply Forall_take, Forall_drop|apply Forall_take]; done.
Qed.

(** After the splitter and the scaler, on a dataset of rows of [d]
    values: the scaler has [d] features, the scaled rows have [d]
    values, and every subset has as many rows as labels. *)
Lemma split_and_scale_shape (X : list (list Byte.byte)) (y : list nat)
    (p : Prepared F) (d : nat) :
  good_rng E → Forall (λ row, length row = d) X →
  SVM.split_and_scale E X y = Ok p →
  sklearn.n_features_in_ (scaler p) = d
  ∧ Forall (λ row, length row = d) (X_train p)
  ∧ Forall (λ row, length row = d) (X_test p)
  ∧ length (X_train p) = length (y_train p)
  ∧ length (X_test p) = length (y_test p).
Proof.
  intros Hrng Hrows Hrun.
  destruct (split_and_scale_ok E X y p Hrun)
    as (Hlen & ind_train & ind_test & Hidx & Hfit & Htr & Hte & -> & ->).
  destruct (split_indices_in_range _ _ _ _ _ Hrng Hidx) as [Hin_tr Hin_te].
  destruct (fit_ok _ _ Hfit) as [Hmean Hscale].
  assert (sklearn.n_features_in_ (scaler p) = d) as Hd.
  { pose proof Htr as Htr'. apply transform_ok in Htr' as [_ Hraw].
    assert (Forall (λ row, length row = d) (np.take_rows X ind_train)) as Hraw'
      by by apply take_rows_Forall.
    unfold sklearn.fit in Hfit.
    destruct (sklearn.check_array (np.take_rows X ind_train)) as [[Xf nf]|] eqn:Hc;
      [|done].
    apply check_array_ok in Hc as (_ & Hne & _ & _).
    destruct (np.take_rows X ind_train) as [|row rest]; [done|].
    apply Forall_inv in Hraw, Hraw'. cbn beta in Hraw, Hraw'. congruence. }
  destruct (transform_shape _ _ _ Hmean Hscale Htr) as [Hltr Hrtr].
  destruct (transform_shape _ _ _ Hmean Hscale Hte) as [Hlte Hrte].
  rewrite Hd in Hrtr, Hrte.
  rewrite !take_rows_length in *. done.
Qed.

End split_shape.

Lemma flatten_chunks_rows {A} (rows : list (list A)) d1 d2 :
  Forall (λ row, length row = (d1 * d2)%nat) rows →
  np.flatten <$> (np.chunks d1 d2 <$> rows) = rows.
Proof.
  intros Hrows. rewrite <- list_fmap_compose. rewrite <- (list_fmap_id rows) at 2.
  apply Forall_fmap_ext. eapply Forall_impl; [exact Hrows|].
  intros row Hrow. exact (chunks_flatten d1 d2 row Hrow).
Qed.

(** X2. With both directories listed and fewer than two entries that
    decode, the first cell of either notebook ends with the splitter's
    [ValueError]: it has printed the diagnostics of the entries it
    could not decode, and never its closing line. *)
Theorem cell_raises_below_two_decodable {F} `{Numerics F} (E : Env)
    (fno fyes : list string) :
  listdir E (os_path.join SVM.data_folder "no") = Ok fno →
  listdir E (os_path.join SVM.data_folder "yes") = Ok fyes →
  (length (decoded E (os_path.join SVM.data_folder "no") fno)
   + length (decoded E (os_path.join SVM.data_folder "yes") fyes) < 2)%nat →
  ∃ e, exn_class e = "ValueError"
    ∧ SVM.cell (F := F) E
      = mkRun (diagnostics E (os_path.join SVM.data_folder "no") fno
                 ++ diagnostics E (os_path.join SVM.data_folder "yes") fyes)
          (Raise e)
    ∧ RNN.cell (F := F) E
      = mkRun (diagnostics E (os_path.join SVM.data_folder "no") fno
                 ++ diagnostics E (os_path.join SVM.data_folder "yes") fyes)
          (Raise e).
Proof.
  intros Hno Hyes Hn.
  pose proof (load_split_scale_listed (F := F) E fno fyes Hno Hyes) as Hrun.
  cbv zeta in Hrun.
  set (X := decoded E _ fno ++ decoded E _ fyes) in *.
  set (y := replicate _ 0 ++ replicate _ 1) in *.
  destruct (train_test_split_small E X y) as (e & Hsplit & He).
  { subst X. rewrite length_app. lia. }
  assert (SVM.split_and_scale (F := F) E X y = Raise e) as Hraise
    by (unfold SVM.split_and_scale; by rewrite Hsplit).
  rewrite Hraise in Hrun. exists e. split_and!; [done| |].
  - unfold SVM.cell. by rewrite Hrun.
  - unfold RNN.cell.
    change (RNN.load_split_scale E) with (SVM.load_split_scale (F := F) E).
    by rewrite Hrun.
Qed.

Lemma cell_raises_below_two_decodable_witness :
  ∃ e, exn_class e = "ValueError"
    ∧ SVM.cell (H := Demo.Q_numerics) Scenario.env_one_image
      = mkRun ["Error loading image ./brain_tumor_dataset/no/notes.txt: cannot identify image file"]
          (Raise e).
Proof.
  destruct (cell_raises_below_two_decodable (H := Demo.Q_numerics)
              Scenario.env_one_image ["notes.txt"] ["y1.jpg"] eq_refl eq_refl)
    as (e & He & Hsvm & _).
  - vm_compute. lia.
  - exists e. split; [done|]. rewrite Hsvm. by vm_compute.
Defined.

(** X3. With both directories listed and two entries or more that
    decode, the RNN notebook's first cell runs to its closing [print]
    as well: the reshape never raises on the scaled rows, the flat
    matrices are those of the SVM notebook, and each sample's 64 steps
    of 64 values flatten back to its scaled row. *)
Theorem rnn_cell_completes {F} `{Numerics F} (E : Env) (fno fyes : list string) :
  good_rng E →
  listdir E (os_path.join RNN.data_folder "no") = Ok fno →
  listdir E (os_path.join RNN.data_folder "yes") = Ok fyes →
  (2 ≤ length (decoded E (os_path.join RNN.data_folder "no") fno)
       + length (decoded E (os_path.join RNN.data_folder "yes") fyes))%nat →
  ∃ q : Sequences F,
    RNN.cell E
    = mkRun (diagnostics E (os_path.join RNN.data_folder "no") fno
               ++ diagnostics E (os_path.join RNN.data_folder "yes") fyes
               ++ ["Data loading and preprocessing complete."])
        (Ok q)
    ∧ outcome (SVM.cell E) = Ok (flat q)
    ∧ X_train_steps q = np.chunks 64 64 <$> X_train (flat q)
    ∧ X_test_steps q = np.chunks 64 64 <$> X_test (flat q)
    ∧ np.flatten <$> X_train_steps q = X_train (flat q)
    ∧ np.flatten <$> X_test_steps q = X_test (flat q).
Proof.
  intros Hrng Hno Hyes Hn.
  change RNN.data_folder with SVM.data_folder in *.
  pose proof (load_split_scale_listed (F := F) E fno fyes Hno Hyes) as Hrun.
  cbv zeta in Hrun.
  set (dno := decoded E _ fno) in *. set (dyes := decoded E _ fyes) in *.
  set (X := dno ++ dyes) in *.
  set (y := replicate _ 0 ++ replicate _ 1) in *.
  assert (length X = length y) as Hlen
    by (subst X y; by rewrite !length_app, !length_replicate).
  assert (Forall (λ row, length row = 4096) X) as Hrows
    by (apply Forall_app; split; apply decoded_rows).
  destruct (split_and_scale_returns (F := F) E X y 4096 Hrng Hlen) as [p Hp];
    [subst X; rewrite length_app; lia|lia|done|].
  destruct (split_and_scale_shape E X y p 4096 Hrng Hrows Hp)
    as (_ & Htr & Hte & _ & _).
  rewrite Hp in Hrun.
  exists (mkSequences (np.chunks 64 64 <$> X_train p) (np.chunks 64 64 <$> X_test p) p).
  cbn [flat X_train_steps X_test_steps].
  split_and!; [| |done|done|by apply (flatten_chunks_rows _ 64 64)
              |by apply (flatten_chunks_rows _ 64 64)].
  - unfold RNN.cell, RNN.shape_adapter.
    change (RNN.load_split_scale E) with (SVM.load_split_scale (F := F) E).
    rewrite Hrun. cbn [outcome printed].
    rewrite !(reshape_rows _ 64 64) by done. cbn [mbind result_bind].
    by rewrite <- app_assoc.
  - unfold SVM.cell. by rewrite Hrun.
Qed.

Lemma rnn_cell_completes_witness :
  ∃ q : Sequences Q,
    outcome (RNN.cell (H := Demo.Q_numerics) Demo.env) = Ok q
    ∧ np.flatten <$> X_test_steps q = X_test (flat q).
Proof.
  destruct (rnn_cell_completes (H := Demo.Q_numerics) Demo.env
              ["n1.jpg"; "notes.txt"; "n2.jpg"] ["y1.jpg"; "y2.jpg"; "cut.jpg"]
              demo_rng_good eq_refl eq_refl)
    as (q & Hcell & _ & _ & _ & _ & Hflat).
  - vm_compute. lia.
  - exists q. rewrite Hcell. by split.
Defined.

(** X4. When [os.listdir] raises, the loader has printed what it
    printed so far and returns nothing: for a failing [no] listing no
    line at all; for a failing [yes] listing the diagnostics of every
    entry of [no], whose decoded images are dropped with the run. *)
Theorem failed_listing_keeps_printed_lines (E : Env) (folder : string) (e : Exn) :
  (listdir E (os_path.join folder "no") = Raise e →
   SVM.load_images_from_folder E folder = mkRun [] (Raise e))
  ∧ (∀ fno,
       listdir E (os_path.join folder "no") = Ok fno →
       listdir E (os_path.join folder "yes") = Raise e →
       SVM.load_images_from_folder E folder
       = mkRun (diagnostics E (os_path.join folder "no") fno) (Raise e)).
Proof.
  split.
  - intros Hno. unfold SVM.load_images_from_folder.
    cbn [enumerate length seq zip zip_with SVM.for_subfolder].
    by rewrite Hno.
  - intros fno Hno Hyes. unfold SVM.load_images_from_folder.
    cbn [enumerate length seq zip zip_with SVM.for_subfolder].
    rewrite Hno, for_filename_spec. cbn [images labels stdout app].
    by rewrite Hyes.
Qed.

Lemma failed_listing_keeps_printed_lines_witness :
  SVM.load_images_from_folder Scenario.env_empty_root "./brain_tumor_dataset"
    = mkRun [] (Raise Demo.FileNotFoundError)
  ∧ SVM.load_images_from_folder Demo.env_no_yes "./brain_tumor_dataset"
    = mkRun ["Error loading image ./brain_tumor_dataset/no/notes.txt: cannot identify image file"]
        (Raise Demo.FileNotFoundError).
Proof.
  split.
  - apply (proj1 (failed_listing_keeps_printed_lines Scenario.env_empty_root
                    "./brain_tumor_dataset" Demo.FileNotFoundError)).
    reflexivity.
  - rewrite (proj2 (failed_listing_keeps_printed_lines Demo.env_no_yes
                      "./brain_tumor_dataset" Demo.FileNotFoundError)
               ["n1.jpg"; "notes.txt"; "n2.jpg"] eq_refl eq_refl).
    by vm_compute.
Defined.

(** ** Samples and labels through the splitter and the scaler *)

Section pairs.
Context {A B : Type} `{Inhabited A, Inhabited B}.
Implicit Types (X : list A) (y : list B).

Lemma zip_take_rows X y (idx : list nat) :
  zip (np.take_rows X idx) (np.take_rows y idx) = (λ i, (X !!! i, y !!! i)) <$> idx.
Proof.
  unfold np.take_rows. by rewrite zip_with_fmap_l, zip_with_fmap_r, zip_with_diag.
Qed.

Lemma zip_by_index X y :
  length X = length y →
  (λ i, (X !!! i, y !!! i)) <$> seq 0 (length X) = zip X y.
Proof.
  revert y. induction X as [|x X IH]; intros [|y0 y] Hlen; try done.
  cbn [length seq fmap list_fmap]. cbn [zip_with]. f_equal.
  rewrite <- fmap_S_seq, <- list_fmap_compose.
  rewrite <- IH by (cbn in Hlen; lia). done.
Qed.

Lemma train_test_split_needs_two (E : Env) X y r :
  sklearn.train_test_split E X y (sklearn.SizeFloat (1 # 4)) 90 = Ok r →
  length X = length y ∧ (2 ≤ length X)%nat.
Proof.
  unfold sklearn.train_test_split. case_bool_decide as Hlen; cbn [negb]; [|done].
  destruct X as [|x0 [|x1 X]]; [done..|]. intros _. split; [done|]. cbn. lia.
Qed.

End pairs.

(** X5. The splitter of the notebooks never parts a sample from its
    label and neither loses nor repeats one: the train pairs and the
    test pairs together are the pairs of the dataset, rearranged. *)
Theorem split_keeps_samples_with_labels (E : Env) {A B : Type}
    `{Inhabited A, Inhabited B} (X : list A) (y : list B)
    (X_train X_test : list A) (y_train y_test : list B) :
  good_rng E →
  sklearn.train_test_split E X y (sklearn.SizeFloat (1 # 4)) 90
    = Ok (X_train, X_test, y_train, y_test) →
  length X_train = length y_train ∧ length X_test = length y_test
  ∧ zip X_train y_train ++ zip X_test y_test ≡ₚ zip X y.
Proof.
  intros Hrng Hsplit.
  destruct (train_test_split_needs_two E X y _ Hsplit) as [Hlen Hn].
  pose proof (quarter_leaves_training (length X) Hn) as Hlt.
  destruct (train_test_split_float E X y (1 # 4) 90 Hlen eq_refl eq_refl Hlt)
    as [Hpos Hsplit'].
  rewrite Hsplit in Hsplit'. injection Hsplit' as -> -> -> ->.
  set (n_test := Qceiling ((1 # 4) * inject_Z (Z.of_nat (length X)))) in *.
  change (0 < n_test)%Z in Hpos.
  assert (0 ≤ n_test ≤ Z.of_nat (length X))%Z as Hrange by lia.
  destruct (indices_partition E 90 (length X) n_test Hrng Hrange) as (Happ & _ & _).
  rewrite !take_rows_length. split_and!; [done..|].
  rewrite !zip_take_rows, <- fmap_app.
  rewrite (Permutation_app_comm (train_indices _ _ _ _)), Happ, (Hrng 90%Z (length X)).
  by rewrite zip_by_index.
Qed.

Lemma split_keeps_samples_with_labels_witness :
  ∃ X_train X_test y_train y_test,
    sklearn.train_test_split Demo.env Demo.X6 Demo.y6 (sklearn.SizeFloat (1 # 4)) 90
      = Ok (X_train, X_test, y_train, y_test)
    ∧ zip X_train y_train ++ zip X_test y_test ≡ₚ zip Demo.X6 Demo.y6.
Proof.
  eexists _, _, _, _. split; [by vm_compute|].
  eapply (split_keeps_samples_with_labels Demo.env Demo.X6 Demo.y6);
    [exact demo_rng_good|by vm_compute].
Defined.

Lemma take_rows_lookup {A} `{Inhabited A} (a : list A) (idx : list nat) k i :
  idx !! k = Some i → (i < length a)%nat →
  np.take_rows a idx !! k = a !! i.
Proof.
  intros Hk Hi. unfold np.take_rows. rewrite list_lookup_fmap, Hk. cbn.
  by rewrite list_lookup_lookup_total_lt.
Qed.

(** X6. Through the splitter and the scaler of either notebook the
    features stay with their labels: row [k] of a scaled subset is the
    scaled row of the dataset sample that the split put at place [k] of
    that subset, and label [k] of the subset is that sample's label;
    all scaled rows have as many values as the scaler has features. *)
Theorem scaled_samples_keep_their_labels {F} `{Numerics F} (E : Env)
    (run : Env → list (list Byte.byte) → list nat → result (Prepared F))
    (X : list (list Byte.byte)) (y : list nat) (p : Prepared F) :
  run ∈ [SVM.split_and_scale; RNN.split_and_scale] →
  good_rng E →
  run E X y = Ok p →
  ∃ ind_train ind_test,
    split_indices E (length X) (sklearn.SizeFloat (1 # 4)) 90 = Ok (ind_train, ind_test)
    ∧ length (X_train p) = length ind_train ∧ length (y_train p) = length ind_train
    ∧ length (X_test p) = length ind_test ∧ length (y_test p) = length ind_test
    ∧ Forall (λ row, length row = sklearn.n_features_in_ (scaler p))
        (X_train p ++ X_test p)
    ∧ ∀ ind Xs ys k i,
        (ind, Xs, ys) ∈ [(ind_train, X_train p, y_train p);
                         (ind_test, X_test p, y_test p)] →
        ind !! k = Some i →
        ∃ row label,
          X !! i = Some row ∧ y !! i = Some label
          ∧ Xs !! k = Some (sklearn.scale_row (scaler p) (float_of_uint8 <$> row))
          ∧ ys !! k = Some label.
Proof.
  intros Hnotebook Hrng Hrun.
  assert (run = SVM.split_and_scale) as ->.
  { apply elem_of_cons in Hnotebook as [->|Hnotebook]; [done|].
    by apply list_elem_of_singleton in Hnotebook as ->. }
  destruct (split_and_scale_ok E X y p Hrun)
    as (Hlen & ind_train & ind_test & Hidx & Hfit & Htr & Hte & Hytr & Hyte).
  destruct (split_indices_in_range E _ _ _ _ _ Hrng Hidx) as [Hin_tr Hin_te].
  destruct (fit_ok _ _ Hfit) as [Hmean Hscale].
  destruct (transform_shape _ _ _ Hmean Hscale Htr) as [Hltr Hrtr].
  destruct (transform_shape _ _ _ Hmean Hscale Hte) as [Hlte Hrte].
  rewrite take_rows_length in Hltr, Hlte.
  exists ind_train, ind_test.
  split_and!; [done|done|by rewrite Hytr, take_rows_length|done
              |by rewrite Hyte, take_rows_length|by apply Forall_app|].
  assert (∀ ind Xs k i,
            Forall (λ i, (i < length X)%nat) ind →
            sklearn.transform (scaler p) (np.take_rows X ind) = Ok Xs →
            ind !! k = Some i →
            ∃ row label,
              X !! i = Some row ∧ y !! i = Some label
              ∧ Xs !! k = Some (sklearn.scale_row (scaler p) (float_of_uint8 <$> row))
              ∧ np.take_rows y ind !! k = Some label) as Hat.
  { intros ind Xs k i Hin Htrans Hk.
    assert (i < length X)%nat as Hi by (eapply Forall_lookup_1 in Hin; eauto).
    destruct (lookup_lt_is_Some_2 X i Hi) as [row Hrow].
    destruct (lookup_lt_is_Some_2 y i ltac:(lia)) as [label Hlabel].
    exists row, label. split_and!; [done..| |].
    - apply transform_ok in Htrans as [-> _]. unfold sklearn.as_float.
      rewrite !list_lookup_fmap, (take_rows_lookup X ind k i Hk Hi), Hrow. done.
    - by rewrite (take_rows_lookup y ind k i Hk ltac:(lia)). }
  intros ind Xs ys k i Hcase Hk.
  apply elem_of_cons in Hcase as [[= -> -> ->]|Hcase];
    [|apply list_elem_of_singleton in Hcase as [= -> -> ->]].
  - rewrite Hytr. by eapply Hat.
  - rewrite Hyte. by eapply Hat.
Qed.

Lemma scaled_samples_keep_their_labels_witness :
  ∃ ind_train ind_test,
    split_indices Demo.env (length Demo.X6) (sklearn.SizeFloat (1 # 4)) 90
      = Ok (ind_train, ind_test)
    ∧ length (y_test (Demo.prepared_of Demo.X6)) = length ind_test.
Proof.
  destruct (scaled_samples_keep_their_labels (H := Demo.Q_numerics) Demo.env
              (RNN.split_and_scale (H := Demo.Q_numerics))
              Demo.X6 Demo.y6 (Demo.prepared_of Demo.X6))
    as (ind_train & ind_test & Hidx & _ & _ & _ & Hy & _).
  - apply list_elem_of_further, list_elem_of_here.
  - exact demo_rng_good.
  - by vm_compute.
  - by exists ind_train, ind_test.
Defined.

(** ** The misclassified images *)

Section where_facts.
Implicit Types (cond : list bool) (a b : list nat).

Lemma where_from_elem i cond k :
  k ∈ numpy.where_from i cond ↔ ∃ j, k = (i + j)%nat ∧ cond !! j = Some true.
Proof.
  revert i. induction cond as [|c cond IH]; intros i; cbn.
  - split; [by intros ?%elem_of_nil|by intros (j & _ & ?)].
  - assert (k ∈ numpy.where_from (S i) cond
            ↔ ∃ j, k = (i + S j)%nat ∧ cond !! j = Some true) as IH'.
    { rewrite IH. split; intros (j & -> & Hj); exists j; split; (lia || done). }
    destruct c.
    + rewrite elem_of_cons, IH'. split.
      * intros [->|(j & -> & Hj)]; [exists 0%nat|exists (S j)]; split; (lia || done).
      * intros ([|j] & -> & Hj); [left; lia|right; by exists j].
    + rewrite IH'. split.
      * intros (j & -> & Hj). by exists (S j).
      * intros ([|j] & -> & Hj); [done|by exists j].
Qed.

Lemma where_from_sorted i cond : StronglySorted lt (numpy.where_from i cond).
Proof.
  revert i. induction cond as [|c cond IH]; intros i; cbn; [constructor|].
  destruct c; [|apply IH]. constructor; [apply IH|].
  apply Forall_forall. intros k Hk.
  apply where_from_elem in Hk as (j & -> & _). lia.
Qed.

Lemma where_from_disagreements i a b :
  length (numpy.where_from i
            (zip_with (λ x y : nat, negb (bool_decide (x = y))) a b))
  = length (filter (λ tp : nat * nat, tp.1 ≠ tp.2) (zip a b)).
Proof.
  revert i b. induction a as [|x a IH]; intros i [|y b]; try done.
  cbn [zip_with numpy.where_from]. rewrite filter_cons. cbn [fst snd].
  case_bool_decide; cbn [negb].
  - rewrite decide_False by tauto. apply IH.
  - rewrite decide_True by done. cbn. f_equal. apply IH.
Qed.

Lemma not_equal_same_length a b :
  length a = length b →
  numpy.not_equal a b = Ok (zip_with (λ x y : nat, negb (bool_decide (x = y))) a b).
Proof. intros Hlen. unfold numpy.not_equal. by rewrite bool_decide_true. Qed.

(** The positions that [np.where(y_test != y_pred)[0]] lists. *)
Lemma where_not_equal_elem a b k :
  k ∈ numpy.where_ (zip_with (λ x y : nat, negb (bool_decide (x = y))) a b)
  ↔ ∃ t p, a !! k = Some t ∧ b !! k = Some p ∧ t ≠ p.
Proof.
  unfold numpy.where_. rewrite where_from_elem. split.
  - intros (j & -> & Hj). cbn.
    apply lookup_zip_with_Some in Hj as (t & p & Hne & Ht & Hp).
    exists t, p. split_and!; [done..|].
    intros ->. by rewrite bool_decide_true in Hne.
  - intros (t & p & Ht & Hp & Hne). exists k. split; [done|].
    apply lookup_zip_with_Some. exists t, p.
    by rewrite bool_decide_false.
Qed.

End where_facts.

(** X7. When there is one prediction per test label, the indices that
    the last cell of either notebook walks through are the positions at
    which prediction and label differ: each of them once, in ascending
    order, as many as there are differing pairs, and none exactly when
    all predictions are right. *)
Theorem misclassified_indices_are_the_disagreements (y_test y_pred : list nat) :
  length y_pred = length y_test →
  ∃ indices,
    SVM_cells.misclassified_indices y_test y_pred = Ok indices
    ∧ RNN_cells.misclassified_indices y_test y_pred = Ok indices
    ∧ StronglySorted lt indices
    ∧ (∀ i, i ∈ indices
            ↔ ∃ t p, y_test !! i = Some t ∧ y_pred !! i = Some p ∧ t ≠ p)
    ∧ length indices
      = length (filter (λ tp : nat * nat, tp.1 ≠ tp.2) (zip y_test y_pred))
    ∧ (indices = [] ↔ y_pred = y_test).
Proof.
  intros Hlen.
  set (cond := zip_with (λ x y : nat, negb (bool_decide (x = y))) y_test y_pred).
  assert (SVM_cells.misclassified_indices y_test y_pred = Ok (numpy.where_ cond))
    as Hsvm.
  { unfold SVM_cells.misclassified_indices.
    by rewrite not_equal_same_length. }
  exists (numpy.where_ cond).
  split_and!; [done|exact Hsvm|apply where_from_sorted
              |apply where_not_equal_elem|apply where_from_disagreements|].
  split.
  - intros Hnil. apply list_eq. intros i.
    destruct (y_test !! i) as [t|] eqn:Ht.
    + destruct (lookup_lt_is_Some_2 y_pred i) as [p Hp];
        [apply lookup_lt_Some in Ht; lia|].
      rewrite Hp. f_equal. destruct (decide (t = p)) as [|Hne]; [done|].
      assert (i ∈ numpy.where_ cond) as Hin
        by (apply where_not_equal_elem; by exists t, p).
      rewrite Hnil in Hin. by apply elem_of_nil in Hin.
    + apply lookup_ge_None. apply lookup_ge_None in Ht. lia.
  - intros ->. destruct (numpy.where_ cond) as [|i rest] eqn:Hw; [done|].
    assert (i ∈ numpy.where_ cond) as Hin by (rewrite Hw; apply list_elem_of_here).
    apply where_not_equal_elem in Hin as (t & p & Ht & Hp & Hne). congruence.
Qed.

Lemma misclassified_indices_are_the_disagreements_witness :
  ∃ indices,
    SVM_cells.misclassified_indices Scenario.y_test3 Scenario.y_pred3 = Ok indices
    ∧ length indices = 1%nat.
Proof.
  destruct (misclassified_indices_are_the_disagreements
              Scenario.y_test3 Scenario.y_pred3 eq_refl)
    as (indices & Hsvm & _ & _ & _ & Hcount & _).
  exists indices. split; [done|]. rewrite Hcount. by vm_compute.
Defined.

Section figures.
Context {F : Type}.
Implicit Types (X_test : list (list F)) (y_test y_pred : list nat).

Lemma getitem_lookup {A} (a : list A) i x : a !! i = Some x → numpy.getitem a i = Ok x.
Proof. intros Hx. unfold numpy.getitem. by rewrite Hx. Qed.

Lemma reshape2_row (row : list F) :
  length row = 4096%nat → numpy.reshape2 row (64, 64) = Ok (np.chunks 64 64 row).
Proof.
  intros Hrow. unfold numpy.reshape2. rewrite decide_True; [done|exact Hrow].
Qed.

(** The loop over indices at which a row of 4096 values, a label and a
    prediction exist draws one figure per index. *)
Lemma for_index_figures X_test y_test y_pred indices ev :
  Forall (λ row, length row = 4096%nat) X_test →
  Forall (λ i, (i < length X_test)%nat ∧ (i < length y_test)%nat
               ∧ (i < length y_pred)%nat) indices →
  SVM_cells.for_index X_test y_test y_pred indices ev
  = mkPlotRun (ev ++ (indices ≫= figure_at X_test y_test y_pred)) (Ok ()).
Proof.
  intros Hrows Hidx. revert ev.
  induction Hidx as [|i indices (HX & Ht & Hp) _ IH]; intros ev.
  - cbn. by rewrite app_nil_r.
  - destruct (lookup_lt_is_Some_2 X_test i HX) as [row Hrow].
    destruct (lookup_lt_is_Some_2 y_test i Ht) as [t Hti].
    destruct (lookup_lt_is_Some_2 y_pred i Hp) as [p Hpi].
    assert (length row = 4096%nat) as Hlen
      by (eapply Forall_lookup_1 in Hrows; eauto).
    cbn [SVM_cells.for_index].
    rewrite (getitem_lookup _ _ _ Hrow), (getitem_lookup _ _ _ Hti),
      (getitem_lookup _ _ _ Hpi).
    cbn [mbind result_bind]. rewrite (reshape2_row row Hlen).
    rewrite IH. cbn [mbind list_bind]. unfold figure_at at 2.
    rewrite Hrow, Hti, Hpi. by rewrite <- !app_assoc.
Qed.

Lemma figure_at_length X_test y_test y_pred i :
  (i < length X_test)%nat → (i < length y_test)%nat → (i < length y_pred)%nat →
  length (figure_at X_test y_test y_pred i) = 3%nat.
Proof.
  intros HX Ht Hp. unfold figure_at.
  destruct (lookup_lt_is_Some_2 X_test i HX) as [row ->].
  destruct (lookup_lt_is_Some_2 y_test i Ht) as [t ->].
  by destruct (lookup_lt_is_Some_2 y_pred i Hp) as [p ->].
Qed.

Lemma figures_length X_test y_test y_pred indices :
  Forall (λ i, (i < length X_test)%nat ∧ (i < length y_test)%nat
               ∧ (i < length y_pred)%nat) indices →
  length (indices ≫= figure_at X_test y_test y_pred) = (3 * length indices)%nat.
Proof.
  induction 1 as [|i indices (? & ? & ?) _ IH]; [done|].
  rewrite bind_cons, length_app, figure_at_length by done.
  rewrite IH. cbn [length]. lia.
Qed.

End figures.

(** X8. When the test matrix has one row of 4096 values per label and
    there is one prediction per label, the last cell of the SVM
    notebook ends without an exception and draws exactly one figure per
    differing position, in ascending order: the row as 64 rows of 64
    values, a title with the true and the predicted label, which
    differ, and the show.  It draws nothing exactly when all
    predictions are right. *)
Theorem svm_misclassified_images_drawn {F : Type} (X_test : list (list F))
    (y_test y_pred : list nat) :
  Forall (λ row, length row = 4096%nat) X_test →
  length X_test = length y_test →
  length y_pred = length y_test →
  ∃ indices,
    SVM_cells.misclassified_indices y_test y_pred = Ok indices
    ∧ SVM_cells.misclassified_images X_test y_test y_pred
      = mkPlotRun (indices ≫= figure_at X_test y_test y_pred) (Ok ())
    ∧ length (events (SVM_cells.misclassified_images X_test y_test y_pred))
      = (3 * length indices)%nat
    ∧ (∀ i, i ∈ indices →
         ∃ row t p,
           X_test !! i = Some row ∧ y_test !! i = Some t ∧ y_pred !! i = Some p
           ∧ t ≠ p
           ∧ figure_at X_test y_test y_pred i
             = [Imshow (np.chunks 64 64 row);
                Title ("True Label: " +:+ pretty t +:+ ", Predicted: " +:+ pretty p);
                Show])
    ∧ (events (SVM_cells.misclassified_images X_test y_test y_pred) = []
       ↔ y_pred = y_test).
Proof.
  intros Hrows HX Hlen.
  set (cond := zip_with (λ x y : nat, negb (bool_decide (x = y))) y_test y_pred).
  assert (SVM_cells.misclassified_indices y_test y_pred = Ok (numpy.where_ cond))
    as Hidx.
  { unfold SVM_cells.misclassified_indices. by rewrite not_equal_same_length. }
  assert (∀ i, i ∈ numpy.where_ cond →
            ∃ row t p,
              X_test !! i = Some row ∧ y_test !! i = Some t ∧ y_pred !! i = Some p
              ∧ t ≠ p) as Hat.
  { intros i Hi. apply where_not_equal_elem in Hi as (t & p & Ht & Hp & Hne).
    destruct (lookup_lt_is_Some_2 X_test i) as [row Hrow];
      [apply lookup_lt_Some in Ht; lia|].
    by exists row, t, p. }
  assert (Forall (λ i, (i < length X_test)%nat ∧ (i < length y_test)%nat
                       ∧ (i < length y_pred)%nat) (numpy.where_ cond)) as Hrange.
  { apply Forall_forall. intros i Hi.
    destruct (Hat i Hi) as (row & t & p & Hrow & Ht & Hp & _).
    apply lookup_lt_Some in Hrow, Ht, Hp. done. }
  assert (SVM_cells.misclassified_images X_test y_test y_pred
          = mkPlotRun (numpy.where_ cond ≫= figure_at X_test y_test y_pred) (Ok ()))
    as Hrun.
  { unfold SVM_cells.misclassified_images. rewrite Hidx.
    by rewrite for_index_figures. }
  assert (length (numpy.where_ cond ≫= figure_at X_test y_test y_pred)
          = (3 * length (numpy.where_ cond))%nat) as Hcount.
  { by apply figures_length. }
  exists (numpy.where_ cond). rewrite Hrun. cbn [events].
  split_and!; [done|done|done| |].
  - intros i Hi. destruct (Hat i Hi) as (row & t & p & Hrow & Ht & Hp & Hne).
    exists row, t, p. split_and!; [done..|].
    unfold figure_at. by rewrite Hrow, Ht, Hp.
  - assert (numpy.where_ cond = [] ↔ y_pred = y_test) as <-.
    { split.
      - intros Hnil. apply list_eq. intros i.
        destruct (y_test !! i) as [t|] eqn:Ht.
        + destruct (lookup_lt_is_Some_2 y_pred i) as [p Hp];
            [apply lookup_lt_Some in Ht; lia|].
          rewrite Hp. f_equal. destruct (decide (t = p)) as [|Hne]; [done|].
          assert (i ∈ numpy.where_ cond) as Hin
            by (apply where_not_equal_elem; by exists t, p).
          rewrite Hnil in Hin. by apply elem_of_nil in Hin.
        + apply lookup_ge_None. apply lookup_ge_None in Ht. lia.
      - intros Heq. destruct (numpy.where_ cond) as [|i rest] eqn:Hw; [done|].
        destruct (Hat i (list_elem_of_here _ _)) as (_ & t & p & _ & Ht & Hp & Hne).
        congruence. }
    split; [|by intros ->].
    intros Hnil. apply (f_equal length) in Hnil. rewrite Hcount in Hnil.
    cbn in Hnil. destruct (numpy.where_ cond); [done|cbn in Hnil; lia].
Qed.

Lemma svm_misclassified_images_drawn_witness :
  events (SVM_cells.misclassified_images
            Scenario.X_test3 Scenario.y_test3 Scenario.y_pred3)
  = [Imshow (np.chunks 64 64 (seq 1 4096));
     Title "True Label: 1, Predicted: 0"; Show].
Proof.
  destruct (svm_misclassified_images_drawn
              Scenario.X_test3 Scenario.y_test3 Scenario.y_pred3)
    as (indices & Hidx & Hrun & _).
  - repeat constructor.
  - reflexivity.
  - reflexivity.
  - rewrite Hrun. vm_compute in Hidx. injection Hidx as <-. reflexivity.
Defined.

Lemma rnn_for_index_same {F : Type} (X_test : list (list F))
    (y_test y_pred : list nat) (indices : list nat) (ev : list (PlotEvent F)) :
  Forall (λ row, length row = 4096%nat) X_test →
  RNN_cells.for_index (np.chunks 64 64 <$> X_test) y_test y_pred indices ev
  = SVM_cells.for_index X_test y_test y_pred indices ev.
Proof.
  intros Hrows. revert ev. induction indices as [|i indices IH]; intros ev; [done|].
  cbn [RNN_cells.for_index SVM_cells.for_index].
  unfold numpy.getitem at 1 4. rewrite list_lookup_fmap.
  destruct (X_test !! i) as [row|] eqn:Hrow; cbn [fmap option_fmap option_map];
    cbn [mbind result_bind]; [|done].
  assert (length row = (64 * 64)%nat) as Hlen
    by (eapply Forall_lookup_1 in Hrows; eauto).
  rewrite (chunks_flatten 64 64 row Hlen).
  destruct (numpy.reshape2 row (64, 64)) as [img|]; [|done].
  change RNN_cells.title with SVM_cells.title.
  destruct (numpy.getitem y_test i ≫= _) as [s|]; [|done].
  apply IH.
Qed.

(** X9. On test rows of 4096 values, the last cell of the RNN notebook,
    which holds every row as 64 steps of 64 values, draws what the
    last cell of the SVM notebook draws from the flat rows, whatever
    the labels and the predictions are: the same events and the same
    ending, errors included. *)
Theorem rnn_draws_the_svm_figures {F : Type} (X_test : list (list F))
    (y_test y_pred : list nat) :
  Forall (λ row, length row = 4096%nat) X_test →
  RNN_cells.misclassified_images (np.chunks 64 64 <$> X_test) y_test y_pred
  = SVM_cells.misclassified_images X_test y_test y_pred.
Proof.
  intros Hrows.
  unfold RNN_cells.misclassified_images, SVM_cells.misclassified_images.
  change (RNN_cells.misclassified_indices y_test y_pred)
    with (SVM_cells.misclassified_indices y_test y_pred).
  destruct (SVM_cells.misclassified_indices y_test y_pred) as [indices|]; [|done].
  by apply rnn_for_index_same.
Qed.

Lemma rnn_draws_the_svm_figures_witness :
  RNN_cells.misclassified_images (np.chunks 64 64 <$> Scenario.X_test3)
    Scenario.y_test3 Scenario.y_pred3
  = SVM_cells.misclassified_images Scenario.X_test3 Scenario.y_test3 Scenario.y_pred3.
Proof.
  apply (rnn_draws_the_svm_figures Scenario.X_test3). repeat constructor.
Defined.

(** X10. The labels the RNN notebook predicts are 0 or 1 whatever the
    model returns; when the model returns one probability per sample,
    there is one label per sample, 1 exactly when the probability is
    above 0.5 and 0 when it is 0.5 or below. *)
Theorem rnn_predictions_are_binary_and_aligned (proba : list (list Q)) :
  Forall (λ label, label = 0%nat ∨ label = 1%nat) (RNN_cells.y_pred proba)
  ∧ (Forall (λ row, length row = 1%nat) proba →
     length (RNN_cells.y_pred proba) = length proba
     ∧ ∀ i q, proba !! i = Some [q] →
         ∃ label, RNN_cells.y_pred proba !! i = Some label
                  ∧ (label = 1%nat ↔ (1 # 2 < q)%Q)
                  ∧ (label = 0%nat ↔ (q <= 1 # 2)%Q)).
Proof.
  unfold RNN_cells.y_pred, np.flatten. split.
  - induction proba as [|row proba IH]; cbn [fmap list_fmap concat]; [done|].
    apply Forall_app. split; [|exact IH].
    apply Forall_fmap, Forall_forall. intros q _. cbn.
    destruct (Qle_bool q (1 # 2)); auto.
  - intros Hrows. induction Hrows as [|row proba Hrow _ IH].
    + split; [done|]. by intros i q ?.
    + destruct row as [|q0 [|q1 row]]; try done.
      destruct IH as [IHlen IHat]. cbn [fmap list_fmap concat app length].
      split; [by f_equal|].
      intros [|i] q Hq.
      * cbn in Hq. injection Hq as <-. eexists. split; [reflexivity|].
        destruct (Qle_bool q0 (1 # 2)) eqn:Hle.
        -- apply Qle_bool_iff in Hle. split; split; try done.
           intros Hlt. by apply Qlt_not_le in Hlt.
        -- assert (¬ (q0 <= 1 # 2)%Q) as Hnle
             by (intros Hle'; apply Qle_bool_iff in Hle'; congruence).
           split; split; try done. intros _. by apply Qnot_le_lt.
      * cbn in Hq. exact (IHat i q Hq).
Qed.

Lemma rnn_predictions_are_binary_and_aligned_witness :
  length (RNN_cells.y_pred Scenario.proba3) = 3%nat
  ∧ RNN_cells.y_pred Scenario.proba3 = [0; 0; 1]%nat.
Proof.
  split; [|reflexivity].
  apply (proj2 (rnn_predictions_are_binary_and_aligned Scenario.proba3)).
  repeat constructor.
Defined.

(** X11. Predictions that are neither as many as the test labels nor a
    single one make the comparison of the last cell raise: in either
    notebook the cell ends with a [ValueError] before any figure. *)
Theorem mismatched_predictions_draw_nothing {F : Type} (X_test : list (list F))
    (X_steps : list (list (list F))) (y_test y_pred : list nat) :
  length y_pred ≠ length y_test →
  length y_test ≠ 1%nat → length y_pred ≠ 1%nat →
  ∃ e, exn_class e = "ValueError"
    ∧ SVM_cells.misclassified_images X_test y_test y_pred = mkPlotRun [] (Raise e)
    ∧ RNN_cells.misclassified_images X_steps y_test y_pred = mkPlotRun [] (Raise e).
Proof.
  intros Hlen Ht Hp.
  assert (∃ e, numpy.not_equal y_test y_pred = Raise e ∧ exn_class e = "ValueError")
    as (e & Hne & He).
  { unfold numpy.not_equal. rewrite bool_decide_false by done.
    destruct y_test as [|t0 [|t1 y_test]], y_pred as [|p0 [|p1 y_pred]];
      try done; by eexists. }
  exists e. split; [done|].
  unfold SVM_cells.misclassified_images, RNN_cells.misclassified_images,
    SVM_cells.misclassified_indices, RNN_cells.misclassified_indices.
  by rewrite Hne.
Qed.

Lemma mismatched_predictions_draw_nothing_witness :
  ∃ e, exn_class e = "ValueError"
    ∧ SVM_cells.misclassified_images Scenario.X_test3 Scenario.y_test3 [0; 1]%nat
      = mkPlotRun [] (Raise e).
Proof.
  destruct (mismatched_predictions_draw_nothing Scenario.X_test3 []
              Scenario.y_test3 [0; 1]%nat)
    as (e & He & Hsvm & _); [by vm_compute..|].
  by exists e.
Defined.

(** X12. From the loader to the figure nothing is transposed or
    mirrored.  Cutting a loaded sample into 64 rows of 64 gives the
    resized image back, row by row; and the figure that the last cell of
    the SVM notebook draws of the scaled sample shows, at row [r] and
    column [c], the resized pixel of row [r] and column [c], minus the
    mean and over the scale of feature [r * 64 + c]. *)
Theorem displayed_image_keeps_orientation {F} `{Numerics F} (E : Env)
    (g : PIL.GrayImage) (sc : sklearn.StandardScaler F) :
  length (sklearn.mean_ sc) = 4096%nat →
  length (sklearn.scale_ sc) = 4096%nat →
  let resized := Image.resize E g (64, 64) in
  let sample := np.flatten (np.array resized) in
  numpy.reshape2 sample (64, 64) = Ok (np.array resized)
  ∧ ∃ img,
      numpy.reshape2 (sklearn.scale_row sc (float_of_uint8 <$> sample)) (64, 64)
        = Ok img
      ∧ ∀ r c, (r < 64)%nat → (c < 64)%nat →
          ∃ m s,
            sklearn.mean_ sc !! (r * 64 + c)%nat = Some m
            ∧ sklearn.scale_ sc !! (r * 64 + c)%nat = Some s
            ∧ img !! r ≫= (.!! c)
              = Some (fdiv (fsub (float_of_uint8 (PIL.px resized c r)) m) s).
Proof.
  intros Hmean Hscale resized sample.
  assert (length sample = 4096%nat) as Hsample
    by (subst sample; by rewrite flatten_array_length).
  split.
  - rewrite (reshape2_row sample Hsample).
    exact (f_equal Ok (chunks_of_concat (np.array resized) 64 (array_rows resized))).
  - set (scaled := sklearn.scale_row sc (float_of_uint8 <$> sample)).
    assert (length scaled = 4096%nat) as Hscaled.
    { apply scale_row_length; [|done..]. by rewrite length_fmap. }
    exists (np.chunks 64 64 scaled). split; [by apply reshape2_row|].
    intros r c Hr Hc.
    destruct (lookup_lt_is_Some_2 (sklearn.mean_ sc) (r * 64 + c)) as [m Hm]; [lia|].
    destruct (lookup_lt_is_Some_2 (sklearn.scale_ sc) (r * 64 + c)) as [s Hs]; [lia|].
    exists m, s. split_and!; [done..|].
    rewrite chunks_lookup by done. cbn [mbind option_bind].
    rewrite lookup_take_lt, lookup_drop by done.
    apply scale_row_lookup; [|done..].
    assert (sample !! (r * 64 + c)%nat = Some (PIL.px resized c r)) as Hpx
      by exact (flatten_array_lookup resized r c Hr Hc).
    by rewrite list_lookup_fmap, Hpx.
Qed.

Lemma displayed_image_keeps_orientation_witness :
  numpy.reshape2
    (np.flatten (np.array (Image.resize Demo.env (Demo.tile Byte.x10) (64, 64))))
    (64, 64)
  = Ok (np.array (Image.resize Demo.env (Demo.tile Byte.x10) (64, 64))).
Proof.
  apply (displayed_image_keeps_orientation (H := Demo.Q_numerics) Demo.env
           (Demo.tile Byte.x10) Scenario.plain_scaler);
    apply length_replicate.
Defined.

(** ** The last cell on what the first cell leaves *)

Lemma StronglySorted_lt_NoDup (l : list nat) : StronglySorted lt l → NoDup l.
Proof.
  induction 1 as [|i l _ IH Hall]; constructor; [|done].
  intros Hin. eapply Forall_forall in Hall; [|exact Hin]. lia.
Qed.

Section cells_compose.
Context {F : Type} `{Numerics F} (E : Env).

(** What the first three stages leave on the data folder. *)
Lemma load_split_scale_shape (p : Prepared F) :
  good_rng E →
  outcome (SVM.load_split_scale E) = Ok p →
  Forall (λ row, length row = 4096%nat) (X_train p)
  ∧ Forall (λ row, length row = 4096%nat) (X_test p)
  ∧ length (X_train p) = length (y_train p)
  ∧ length (X_test p) = length (y_test p).
Proof.
  intros Hrng Hout. unfold SVM.load_split_scale in Hout.
  destruct (outcome (SVM.load_images_from_folder E SVM.data_folder))
    as [[X y]|] eqn:Hload; cbn [outcome] in Hout; [|done].
  destruct (load_images_returns E _ X y Hload) as (fno & fyes & Hno & Hyes).
  rewrite (load_images_listed E _ fno fyes Hno Hyes) in Hload.
  cbn [outcome] in Hload. injection Hload as <- <-.
  assert (Forall (λ row, length row = 4096%nat)
            (decoded E (os_path.join SVM.data_folder "no") fno
               ++ decoded E (os_path.join SVM.data_folder "yes") fyes)) as Hrows
    by (apply Forall_app; split; apply decoded_rows).
  destruct (split_and_scale_shape E _ _ p 4096 Hrng Hrows Hout)
    as (_ & Htr & Hte & Hltr & Hlte).
  done.
Qed.

Lemma misclassified_images_run (X_test : list (list F)) (y_test y_pred : list nat) :
  Forall (λ row, length row = 4096%nat) X_test →
  length X_test = length y_test →
  length y_pred = length y_test →
  ∃ indices,
    SVM_cells.misclassified_images X_test y_test y_pred
    = mkPlotRun (indices ≫= figure_at X_test y_test y_pred) (Ok ())
    ∧ length (indices ≫= figure_at X_test y_test y_pred) = (3 * length indices)%nat
    ∧ NoDup indices ∧ Forall (λ i, (i < length y_test)%nat) indices.
Proof.
  intros Hrows HX Hlen.
  set (cond := zip_with (λ x y : nat, negb (bool_decide (x = y))) y_test y_pred).
  assert (Forall (λ i, (i < length X_test)%nat ∧ (i < length y_test)%nat
                       ∧ (i < length y_pred)%nat) (numpy.where_ cond)) as Hrange.
  { apply Forall_forall. intros i Hi.
    apply where_not_equal_elem in Hi as (t & p & Ht & Hp & _).
    apply lookup_lt_Some in Ht, Hp. lia. }
  exists (numpy.where_ cond). split_and!.
  - unfold SVM_cells.misclassified_images, SVM_cells.misclassified_indices.
    rewrite not_equal_same_length by done. cbn [mbind result_bind].
    by rewrite for_index_figures.
  - by apply figures_length.
  - apply StronglySorted_lt_NoDup, where_from_sorted.
  - eapply Forall_impl; [exact Hrange|]. by intros i (_ & ? & _).
Qed.

End cells_compose.

Lemma NoDup_below_length (l : list nat) (n : nat) :
  NoDup l → Forall (λ i, (i < n)%nat) l → (length l ≤ n)%nat.
Proof.
  intros Hnd Hall.
  assert (l ⊆ seq 0 n) as Hsub.
  { intros i Hi. apply elem_of_seq. eapply Forall_forall in Hall; [|exact Hi]. lia. }
  pose proof (submseteq_length _ _ (NoDup_submseteq _ _ Hnd Hsub)) as Hle.
  by rewrite length_seq in Hle.
Qed.

(** X13. The last cell never fails on what the first cell leaves: in
    either notebook, after a first cell that ran to its end and with
    one prediction per test label, the loop over the misclassified
    images ends without an exception, having drawn three events per
    figure and no more figures than there are test samples; and both
    notebooks draw the same. *)
Theorem last_cell_runs_on_first_cell_output {F} `{Numerics F} (E : Env)
    (p : Prepared F) (q : Sequences F) (y_pred : list nat) :
  good_rng E →
  outcome (SVM.cell E) = Ok p →
  outcome (RNN.cell E) = Ok q →
  length y_pred = length (y_test p) →
  flat q = p
  ∧ ending (SVM_cells.misclassified_images (X_test p) (y_test p) y_pred) = Ok ()
  ∧ RNN_cells.misclassified_images (X_test_steps q) (y_test (flat q)) y_pred
    = SVM_cells.misclassified_images (X_test p) (y_test p) y_pred
  ∧ ∃ figures,
      length (events (SVM_cells.misclassified_images (X_test p) (y_test p) y_pred))
        = (3 * figures)%nat
      ∧ (figures ≤ length (y_test p))%nat.
Proof.
  intros Hrng Hsvm Hrnn Hlen.
  assert (outcome (SVM.load_split_scale E) = Ok p) as Hp.
  { unfold SVM.cell in Hsvm. cbv zeta in Hsvm.
    destruct (outcome (SVM.load_split_scale E)) as [p'|e] eqn:Hout;
      cbn [outcome] in Hsvm; congruence. }
  destruct (load_split_scale_shape E p Hrng Hp) as (_ & Hte & _ & Hlte).
  assert (q = mkSequences (X_train_steps q) (np.chunks 64 64 <$> X_test p) p) as Hq.
  { unfold RNN.cell in Hrnn.
    change (RNN.load_split_scale E) with (SVM.load_split_scale E) in Hrnn.
    rewrite Hp in Hrnn. unfold RNN.shape_adapter in Hrnn.
    rewrite (reshape_rows (X_test p) 64 64 Hte) in Hrnn.
    destruct (np.reshape (X_train p) _) as [steps|]; cbn [mbind result_bind] in Hrnn;
      [|done].
    cbn [outcome] in Hrnn. by injection Hrnn as <-. }
  destruct (misclassified_images_run (X_test p) (y_test p) y_pred Hte Hlte Hlen)
    as (indices & Hrun & Hcount & Hnd & Hin).
  rewrite Hq. cbn [flat X_test_steps].
  split_and!; [done|by rewrite Hrun| |].
  - unfold RNN_cells.misclassified_images, SVM_cells.misclassified_images.
    change (RNN_cells.misclassified_indices (y_test p) y_pred)
      with (SVM_cells.misclassified_indices (y_test p) y_pred).
    destruct (SVM_cells.misclassified_indices (y_test p) y_pred); [|done].
    by apply rnn_for_index_same.
  - exists (length indices). rewrite Hrun. cbn [events].
    split; [done|]. by apply NoDup_below_length.
Qed.

Lemma last_cell_runs_on_first_cell_output_witness :
  ending (SVM_cells.misclassified_images (X_test Scenario.svm_prepared)
            (y_test Scenario.svm_prepared) [0%nat]) = Ok ().
Proof.
  apply (last_cell_runs_on_first_cell_output (H := Demo.Q_numerics) Demo.env
           Scenario.svm_prepared Scenario.rnn_sequences [0%nat] demo_rng_good);
    by vm_compute.
Defined.
